(** * Junction: the operator console of the railway scheduling service

    A shallow embedding of the React components of the console
    (ScheduleOptimizer, AIDecisions, MLPredictions, Dashboard, Analytics)
    and the properties of the payloads they send and of the state they keep.

    Conventions of the embedding.
    - A component's [useState] cells become the fields of a state record (or a
      plain value when there is one cell); an event handler becomes a function
      from the state before to the state after.
    - [fetch] is the environment: a handler that awaits a request receives the
      outcome of that request as an argument.
    - [JSON.stringify v] is modelled by the JSON tree of [v]: the wire text
      is its rendering. *)

From Stdlib Require Import ZArith QArith Qround List String Ascii Bool Lia DecimalString.
From Stdlib Require DecimalNat DecimalFacts.
From Stdlib Require Import Lqa.
From stdpp Require Import base list strings relations.
Import ListNotations.
Open Scope string_scope.
Open Scope list_scope.

(** ** JavaScript values used by the components *)

Module Js.

(** A JavaScript number.  The finite ones are rationals here: every binary64
    value is one, comparisons on them are exact, and the literals of the
    source ([0.9], [0.1], [12], ...) are printed by [JSON.stringify] as the
    same decimals.  Arithmetic on [Fin] is exact rational arithmetic, without
    the rounding of binary64 and without a signed zero. *)
Inductive number : Type :=
  | NaN
  | NegInf
  | Fin (q : Q)
  | PosInf.

Definition of_Z (z : Z) : number := Fin (inject_Z z).
Definition of_nat (n : nat) : number := of_Z (Z.of_nat n).

Definition Qltb (a b : Q) : bool := negb (Qle_bool b a).

(** [x < y]; any comparison with [NaN] is false. *)
Definition ltb (x y : number) : bool :=
  match x, y with
  | NaN, _ | _, NaN => false
  | NegInf, NegInf => false
  | NegInf, _ => true
  | _, NegInf => false
  | PosInf, _ => false
  | Fin _, PosInf => true
  | Fin a, Fin b => Qltb a b
  end.

(** [x > y] *)
Definition gtb (x y : number) : bool := ltb y x.

Definition Qis_zero (a : Q) : bool := Qeq_bool a 0.

Definition sign_inf (positive : bool) : number :=
  if positive then PosInf else NegInf.

(** [x / y]: a zero divisor gives an infinity, or [NaN] for [0 / 0]. *)
Definition div (x y : number) : number :=
  match x, y with
  | NaN, _ | _, NaN => NaN
  | Fin a, Fin b =>
      if Qis_zero b then
        if Qis_zero a then NaN else sign_inf (Qltb 0 a)
      else Fin (a / b)
  | Fin _, (PosInf | NegInf) => Fin 0
  | PosInf, Fin b => sign_inf (negb (Qltb b 0))
  | NegInf, Fin b => sign_inf (Qltb b 0)
  | (PosInf | NegInf), (PosInf | NegInf) => NaN
  end.

(** [x * y] *)
Definition mul (x y : number) : number :=
  match x, y with
  | NaN, _ | _, NaN => NaN
  | Fin a, Fin b => Fin (a * b)
  | Fin a, PosInf | PosInf, Fin a =>
      if Qis_zero a then NaN else sign_inf (Qltb 0 a)
  | Fin a, NegInf | NegInf, Fin a =>
      if Qis_zero a then NaN else sign_inf (Qltb a 0)
  | PosInf, PosInf | NegInf, NegInf => PosInf
  | PosInf, NegInf | NegInf, PosInf => NegInf
  end.

(** [Math.round]: the nearest integer, halves upwards. *)
Definition round (x : number) : number :=
  match x with
  | Fin a => of_Z (Qfloor (a + (1 # 2)))
  | _ => x
  end.

Definition is_finite (x : number) : bool :=
  match x with Fin _ => true | _ => false end.

(** *** [parseInt] with no radix argument *)

Definition is_white_space (c : ascii) : bool :=
  let n := nat_of_ascii c in
  (Nat.eqb n 32 || (Nat.leb 9 n && Nat.leb n 13))%bool.

Fixpoint trim_start (s : string) : string :=
  match s with
  | String c r => if is_white_space c then trim_start r else s
  | EmptyString => s
  end.

(** The value of [c] as a digit in [radix], when it is one. *)
Definition digit_value (radix : Z) (c : ascii) : option Z :=
  let n := Z.of_nat (nat_of_ascii c) in
  let v :=
    if ((48 <=? n) && (n <=? 57))%Z%bool then Some (n - 48)%Z
    else if ((97 <=? n) && (n <=? 122))%Z%bool then Some (n - 87)%Z
    else if ((65 <=? n) && (n <=? 90))%Z%bool then Some (n - 55)%Z
    else None in
  match v with
  | Some d => if (d <? radix)%Z then Some d else None
  | None => None
  end.

(** The longest prefix of digits; [acc] is [None] until a digit was read. *)
Fixpoint parse_digits (radix : Z) (s : string) (acc : option Z) : option Z :=
  match s with
  | EmptyString => acc
  | String c r =>
      match digit_value radix c with
      | Some d => parse_digits radix r (Some (default 0%Z acc * radix + d)%Z)
      | None => acc
      end
  end.

(** Integers beyond 2^53 are kept exact here, where binary64 rounds them. *)
Definition parseInt (s : string) : number :=
  let s1 := trim_start s in
  let '(sign, s2) :=
    match s1 with
    | String "-"%char r => ((-1)%Z, r)
    | String "+"%char r => (1%Z, r)
    | _ => (1%Z, s1)
    end in
  let '(radix, s3) :=
    match s2 with
    | String "0"%char (String "x"%char r) => (16%Z, r)
    | String "0"%char (String "X"%char r) => (16%Z, r)
    | _ => (10%Z, s2)
    end in
  match parse_digits radix s3 None with
  | Some z => of_Z (sign * z)
  | None => NaN
  end.

(** *** [String.prototype.split] with a non-empty separator *)

(** [skip] characters of a separator just matched are still to be dropped;
    [cur] is the piece being read. *)
Fixpoint split_from (sep s : string) (skip : nat) (cur : string) : list string :=
  match s with
  | EmptyString => [cur]
  | String c r =>
      match skip with
      | S k => split_from sep r k cur
      | O =>
          if String.prefix sep s
          then cur :: split_from sep r (String.length sep - 1) ""
          else split_from sep r 0 (cur +:+ String c "")
      end
  end.

Definition split (s sep : string) : list string := split_from sep s 0 "".

(** Template-literal rendering of a non-negative integer. *)
Definition nat_to_string (n : nat) : string :=
  NilEmpty.string_of_uint (Nat.to_uint n).

(** [String.fromCharCode], for code units below 128 (one byte of the string
    model); the components call it with [65 + tracks.length]. *)
Definition fromCharCode (n : nat) : string := String (ascii_of_nat n) "".

(** *** JSON *)

#[warnings="-register-all"]
Inductive json : Type :=
  | JNull
  | JBool (b : bool)
  | JNum (q : Q)
  | JStr (s : string)
  | JArr (items : list json)
  | JObj (members : list (string * json)).

(** [JSON.stringify] prints [NaN] and the infinities as [null]. *)
Definition number_to_json (x : number) : json :=
  match x with
  | Fin q => JNum q
  | _ => JNull
  end.

Definition keys (j : json) : list string :=
  match j with
  | JObj members => map fst members
  | _ => []
  end.

Fixpoint assoc {A} (k : string) (l : list (string * A)) : option A :=
  match l with
  | [] => None
  | (k', v) :: r => if String.eqb k' k then Some v else assoc k r
  end.

(** [j[k]] for an object [j] *)
Definition member (k : string) (j : json) : option json :=
  match j with
  | JObj members => assoc k members
  | _ => None
  end.

(** [acc[k] = v]: an existing key keeps its place, a new one goes last. *)
Fixpoint assign {A} (k : string) (v : A) (l : list (string * A)) : list (string * A) :=
  match l with
  | [] => [(k, v)]
  | (k', v') :: r =>
      if String.eqb k' k then (k, v) :: r else (k', v') :: assign k v r
  end.

End Js.

(** ** What a component sees of [fetch] *)

Module Http.

Record request : Type := {
  url : string;
  method : string;
  headers : list (string * string);
  body : Js.json
}.

(** A response: its [ok] flag and the body [response.json()] would give. *)
Record response : Type := {
  ok : bool;
  payload : Js.json
}.

(** The awaited promise is fulfilled with a response, or rejects (the
    handlers' [catch] branch, which only logs). *)
Inductive outcome : Type :=
  | Fulfilled (r : response)
  | Rejected.

Definition succeeded (o : outcome) : bool :=
  match o with
  | Fulfilled r => ok r
  | Rejected => false
  end.

Definition json_headers : list (string * string) :=
  [("Content-Type", "application/json")].

End Http.

(** ** AIDecisions.tsx *)

Module AIDecisions.

Inductive Status : Type := pending | accepted | rejected.

Inductive Action : Type := accept | reject.

#[global] Instance Status_eq_dec : EqDecision Status.
Proof. solve_decision. Defined.

#[global] Instance Action_eq_dec : EqDecision Action.
Proof. solve_decision. Defined.

Record AIDecision : Type := {
  id : string;
  type : string;
  description : string;
  impact : string;
  confidence : Js.number;
  status : Status;
  estimatedTimeSaving : Js.number
}.

(** [{ ...decision, status: s }] *)
Definition with_status (s : Status) (decision : AIDecision) : AIDecision :=
  {| id := id decision;
     type := type decision;
     description := description decision;
     impact := impact decision;
     confidence := confidence decision;
     status := s;
     estimatedTimeSaving := estimatedTimeSaving decision |}.

(** The string of an [action] value. *)
Definition action_text (action : Action) : string :=
  match action with
  | accept => "accept"
  | reject => "reject"
  end.

(** [action === 'accept' ? 0.9 : 0.1] *)
Definition feedback_score (action : Action) : Js.number :=
  match action with
  | accept => Js.Fin 0.9
  | reject => Js.Fin 0.1
  end.

(** [action === 'accept' ? 'accepted' : 'rejected'] *)
Definition resolved_status (action : Action) : Status :=
  match action with
  | accept => accepted
  | reject => rejected
  end.

(** The request [handleDecision] hands to [fetch]. *)
Definition resolution_request (decisionId : string) (action : Action) : Http.request :=
  {| Http.url :=
       "http://localhost:8000/decisions/" +:+ decisionId +:+ "/" +:+ action_text action;
     Http.method := "POST";
     Http.headers := Http.json_headers;
     Http.body :=
       Js.JObj
         [("action", Js.JStr (action_text action));
          ("controller_id", Js.JStr "controller-001");
          ("feedback_score", Js.number_to_json (feedback_score action));
          ("context", Js.JStr (action_text action +:+ "ed decision"))] |}.

(** The updater given to [setDecisions] on success. *)
Definition mark_resolved (decisionId : string) (action : Action)
    (prev : list AIDecision) : list AIDecision :=
  map (fun decision =>
         if String.eqb (id decision) decisionId
         then with_status (resolved_status action) decision
         else decision)
      prev.

(** [handleDecision] after its [await]: the state it leaves, given how the
    request went. *)
Definition after_response (o : Http.outcome) (decisionId : string) (action : Action)
    (decisions : list AIDecision) : list AIDecision :=
  match o with
  | Http.Fulfilled response =>
      if Http.ok response then mark_resolved decisionId action decisions
      else decisions
  | Http.Rejected => decisions
  end.

(** [handleDecision], run to completion against the environment [fetch]:
    the request sent and the [decisions] state afterwards. *)
Definition handleDecision (fetch : Http.request -> Http.outcome)
    (decisionId : string) (action : Action) (decisions : list AIDecision)
    : Http.request * list AIDecision :=
  let request := resolution_request decisionId action in
  (request, after_response (fetch request) decisionId action decisions).

(** The Accept and Reject buttons rendered for one decision card, as the
    arguments their [onClick] passes to [handleDecision]. *)
Definition controls (decision : AIDecision) : list (string * Action) :=
  match status decision with
  | pending => [(id decision, accept); (id decision, reject)]
  | _ => []
  end.

Definition offered_controls (decisions : list AIDecision) : list (string * Action) :=
  flat_map controls decisions.

(** *** The component over time

    [handleDecision] is asynchronous: between a click and the settling of its
    request other clicks and other settlements take place.  The console state
    is the [decisions] cell and the requests awaiting their response. *)

Record Console : Type := {
  decisions : list AIDecision;
  in_flight : list (string * Action)
}.

(** The page once the decisions are loaded, no request under way. *)
Definition start (loaded : list AIDecision) : Console :=
  {| decisions := loaded; in_flight := [] |}.

Inductive Event : Type :=
  | Click (decisionId : string) (action : Action)
  | Settle (decisionId : string) (action : Action) (o : Http.outcome).

Fixpoint remove_one (x : string * Action) (l : list (string * Action))
    : list (string * Action) :=
  match l with
  | [] => []
  | y :: r => if bool_decide (y = x) then r else y :: remove_one x r
  end.

(** One event; [None] when it cannot take place: a click needs its button on
    the page, a settlement needs its request to be under way. *)
Definition exec (c : Console) (e : Event) : option Console :=
  match e with
  | Click decisionId action =>
      if bool_decide ((decisionId, action) ∈ offered_controls (decisions c))
      then Some {| decisions := decisions c;
                   in_flight := in_flight c ++ [(decisionId, action)] |}
      else None
  | Settle decisionId action o =>
      if bool_decide ((decisionId, action) ∈ in_flight c)
      then Some {| decisions := after_response o decisionId action (decisions c);
                   in_flight := remove_one (decisionId, action) (in_flight c) |}
      else None
  end.

Fixpoint run (c : Console) (es : list Event) : option Console :=
  match es with
  | [] => Some c
  | e :: r =>
      match exec c e with
      | Some c' => run c' r
      | None => None
      end
  end.

(** The resolutions the service granted in a trace: the requests answered
    with success. *)
Fixpoint granted (es : list Event) : list (string * Action) :=
  match es with
  | [] => []
  | Settle decisionId action o :: r =>
      if Http.succeeded o then (decisionId, action) :: granted r else granted r
  | Click _ _ :: r => granted r
  end.

(** The service resolves a decision at most once (spec 4.5, [resolve]). *)
Definition resolves_once (es : list Event) : Prop :=
  NoDup (map fst (granted es)).

(** The buttons clicked in a trace. *)
Fixpoint clicks (es : list Event) : list (string * Action) :=
  match es with
  | [] => []
  | Click decisionId action :: r => (decisionId, action) :: clicks r
  | Settle _ _ _ :: r => clicks r
  end.

(** The step of the lifecycle from [d] to [d']: nothing, or from pending to
    the status of an action among [clicked], all other fields kept. *)
Definition lifecycle_step (clicked : list (string * Action)) (d d' : AIDecision) : Prop :=
  d' = d \/
  (status d = pending /\
   exists action, (id d, action) ∈ clicked /\ d' = with_status (resolved_status action) d).

(** *** The invariant of a run

    [loaded] are the decisions the page started from and [G] the resolutions
    granted so far.  A decision that was granted a resolution was pending when
    loaded and now has the status of that resolution; any other is as it was
    loaded.  A request under way is for a decision that was loaded pending. *)

Definition follows (G : list (string * Action)) (d0 d : AIDecision) : Prop :=
  match Js.assoc (id d0) G with
  | Some action => status d0 = pending /\ d = with_status (resolved_status action) d0
  | None => d = d0
  end.

Definition was_pending (loaded : list AIDecision) (ka : string * Action) : Prop :=
  exists d0, d0 ∈ loaded /\ id d0 = ka.1 /\ status d0 = pending.

Definition consistent (loaded : list AIDecision) (G : list (string * Action))
    (c : Console) : Prop :=
  Forall2 (follows G) loaded (decisions c) /\ Forall (was_pending loaded) (in_flight c).

(** *** Sample data *)

Definition sample_decision (k : string) (s : Status) : AIDecision :=
  {| id := k; type := "reroute"; description := "Hold LOC-78 at junction A";
     impact := "Clears the express path"; confidence := Js.Fin 0.8;
     status := s; estimatedTimeSaving := Js.Fin 4 |}.

Definition granted_ok : Http.outcome :=
  Http.Fulfilled {| Http.ok := true; Http.payload := Js.JNull |}.

Definition refused : Http.outcome :=
  Http.Fulfilled {| Http.ok := false; Http.payload := Js.JNull |}.

End AIDecisions.

(** ** ScheduleOptimizer.tsx *)

Module ScheduleOptimizer.

Module Train.
Record t : Type := {
  id : string;
  route : list string;
  priority : Js.number;
  current_delay : Js.number
}.
End Train.

Module Track.
Record t : Type := {
  id : string;
  capacity : Js.number;
  type : string
}.
End Track.

(** The [trains] and [tracks] cells.  The [loading] and [optimizedSchedule]
    cells, which no handler reads to build a request, are left out. *)
Record State : Type := {
  trains : list Train.t;
  tracks : list Track.t
}.

Definition initial_trains : list Train.t :=
  [ {| Train.id := "EXP-101"; Train.route := ["A"; "B"; "C"];
       Train.priority := Js.Fin 2; Train.current_delay := Js.Fin 5 |};
    {| Train.id := "LOC-78"; Train.route := ["A"; "D"; "E"];
       Train.priority := Js.Fin 1; Train.current_delay := Js.Fin 0 |};
    {| Train.id := "FRT-203"; Train.route := ["B"; "C"; "F"];
       Train.priority := Js.Fin 0; Train.current_delay := Js.Fin 10 |} ].

Definition initial_tracks : list Track.t :=
  [ {| Track.id := "A"; Track.capacity := Js.Fin 1; Track.type := "junction" |};
    {| Track.id := "B"; Track.capacity := Js.Fin 2; Track.type := "track" |};
    {| Track.id := "C"; Track.capacity := Js.Fin 1; Track.type := "junction" |};
    {| Track.id := "D"; Track.capacity := Js.Fin 1; Track.type := "track" |};
    {| Track.id := "E"; Track.capacity := Js.Fin 1; Track.type := "platform" |};
    {| Track.id := "F"; Track.capacity := Js.Fin 1; Track.type := "platform" |} ].

Definition initial : State :=
  {| trains := initial_trains; tracks := initial_tracks |}.

Definition addTrain (s : State) : State :=
  let newTrain :=
    {| Train.id := "TRAIN-" +:+ Js.nat_to_string (length (trains s) + 1);
       Train.route := ["A"; "B"];
       Train.priority := Js.Fin 1;
       Train.current_delay := Js.Fin 0 |} in
  {| trains := trains s ++ [newTrain]; tracks := tracks s |}.

Definition addTrack (s : State) : State :=
  let newTrack :=
    {| Track.id := Js.fromCharCode (65 + length (tracks s));
       Track.capacity := Js.Fin 1;
       Track.type := "track" |} in
  {| trains := trains s; tracks := tracks s ++ [newTrack] |}.

(** A [field] of [keyof Train] with the [value] stored under it.  The source
    types [value] as [any]; every call gives a value of the field's type. *)
Inductive TrainField : Type :=
  | train_id (value : string)
  | train_route (value : list string)
  | train_priority (value : Js.number)
  | train_current_delay (value : Js.number).

Inductive TrackField : Type :=
  | track_id (value : string)
  | track_capacity (value : Js.number)
  | track_type (value : string).

(** [{ ...train, [field]: value }] *)
Definition set_train_field (fv : TrainField) (train : Train.t) : Train.t :=
  match fv with
  | train_id v =>
      {| Train.id := v; Train.route := Train.route train;
         Train.priority := Train.priority train;
         Train.current_delay := Train.current_delay train |}
  | train_route v =>
      {| Train.id := Train.id train; Train.route := v;
         Train.priority := Train.priority train;
         Train.current_delay := Train.current_delay train |}
  | train_priority v =>
      {| Train.id := Train.id train; Train.route := Train.route train;
         Train.priority := v;
         Train.current_delay := Train.current_delay train |}
  | train_current_delay v =>
      {| Train.id := Train.id train; Train.route := Train.route train;
         Train.priority := Train.priority train;
         Train.current_delay := v |}
  end.

(** [{ ...track, [field]: value }] *)
Definition set_track_field (fv : TrackField) (track : Track.t) : Track.t :=
  match fv with
  | track_id v =>
      {| Track.id := v; Track.capacity := Track.capacity track;
         Track.type := Track.type track |}
  | track_capacity v =>
      {| Track.id := Track.id track; Track.capacity := v;
         Track.type := Track.type track |}
  | track_type v =>
      {| Track.id := Track.id track; Track.capacity := Track.capacity track;
         Track.type := v |}
  end.

(** [updateTrain] on a row of the list.  With [index] past the end the
    source stores the one-field object [{[field]: value}] in a longer array;
    the page calls it only with the index of a rendered row, and that case is
    [None] here. *)
Definition updateTrain (index : nat) (fv : TrainField) (s : State) : option State :=
  match trains s !! index with
  | Some train =>
      Some {| trains := <[index := set_train_field fv train]> (trains s);
              tracks := tracks s |}
  | None => None
  end.

(** [updateTrack], as [updateTrain]. *)
Definition updateTrack (index : nat) (fv : TrackField) (s : State) : option State :=
  match tracks s !! index with
  | Some track =>
      Some {| trains := trains s;
              tracks := <[index := set_track_field fv track]> (tracks s) |}
  | None => None
  end.

(** The [option] elements of the priority [select] and of the type [select],
    with the string the DOM reports as [e.target.value]. *)
Inductive PriorityOption : Type := LowFreight | MediumLocal | HighExpress.

Definition priority_option_value (o : PriorityOption) : string :=
  match o with
  | LowFreight => "0"
  | MediumLocal => "1"
  | HighExpress => "2"
  end.

Inductive TypeOption : Type := OptionTrack | OptionJunction | OptionPlatform.

Definition type_option_value (o : TypeOption) : string :=
  match o with
  | OptionTrack => "track"
  | OptionJunction => "junction"
  | OptionPlatform => "platform"
  end.

(** What the operator can do on the page.  An input event carries the row
    and [e.target.value]. *)
Inductive Event : Type :=
  | AddTrainClick
  | AddTrackClick
  | RouteInput (index : nat) (value : string)
  | CurrentDelayInput (index : nat) (value : string)
  | PrioritySelect (index : nat) (o : PriorityOption)
  | CapacityInput (index : nat) (value : string)
  | TypeSelect (index : nat) (o : TypeOption).

(** The handlers wired in the JSX. *)
Definition handle (s : State) (e : Event) : option State :=
  match e with
  | AddTrainClick => Some (addTrain s)
  | AddTrackClick => Some (addTrack s)
  | RouteInput index value =>
      updateTrain index (train_route (Js.split value ", ")) s
  | CurrentDelayInput index value =>
      updateTrain index (train_current_delay (Js.parseInt value)) s
  | PrioritySelect index o =>
      updateTrain index (train_priority (Js.parseInt (priority_option_value o))) s
  | CapacityInput index value =>
      updateTrack index (track_capacity (Js.parseInt value)) s
  | TypeSelect index o =>
      updateTrack index (track_type (type_option_value o)) s
  end.

Inductive reachable : State -> Prop :=
  | reachable_initial : reachable initial
  | reachable_event s e s' : reachable s -> handle s e = Some s' -> reachable s'.

(** *** The request of [handleOptimize] *)

Definition train_to_json (train : Train.t) : Js.json :=
  Js.JObj
    [("id", Js.JStr (Train.id train));
     ("route", Js.JArr (map Js.JStr (Train.route train)));
     ("priority", Js.number_to_json (Train.priority train));
     ("current_delay", Js.number_to_json (Train.current_delay train))].

Definition track_to_json (track : Track.t) : Js.json :=
  Js.JObj
    [("id", Js.JStr (Track.id track));
     ("capacity", Js.number_to_json (Track.capacity track));
     ("type", Js.JStr (Track.type track))].

Definition scheduled_at_zero : Js.json := Js.JObj [("scheduled_time", Js.JNum 0)].

(** [trains.reduce((acc, train) => { acc[train.id] = {...}; return acc }, {})] *)
Definition current_schedule (ts : list Train.t) : list (string * Js.json) :=
  fold_left (fun acc train => Js.assign (Train.id train) scheduled_at_zero acc) ts [].

Definition optimize_request (s : State) : Http.request :=
  {| Http.url := "http://localhost:8000/optimize";
     Http.method := "POST";
     Http.headers := Http.json_headers;
     Http.body :=
       Js.JObj
         [("trains", Js.JArr (map train_to_json (trains s)));
          ("tracks", Js.JArr (map track_to_json (tracks s)));
          ("current_schedule", Js.JObj (current_schedule (trains s)))] |}.

(** *** The domains of the data model (spec, section 3) *)

(** The priority classes: 0 low/freight, 1 medium/local, 2 high/express. *)
Definition priority_domain : list Js.number := [Js.Fin 0; Js.Fin 1; Js.Fin 2].

Definition element_kinds : list string := ["track"; "junction"; "platform"].

(** A positive integer: an integer value that is at least 1. *)
Definition positive_integer (x : Js.number) : bool :=
  match x with
  | Js.Fin q => Qeq_bool q (inject_Z (Qfloor q)) && Qle_bool 1 q
  | _ => false
  end.

(** The NetworkElement invariant on a track of the page. *)
Definition element_invariant (track : Track.t) : bool :=
  positive_integer (Track.capacity track)
  && bool_decide (Track.type track ∈ element_kinds).

Definition priority_ok (train : Train.t) : Prop :=
  Train.priority train ∈ priority_domain.

Definition kind_ok (track : Track.t) : Prop :=
  Track.type track ∈ element_kinds.

(** A sequence of events from [s]. *)
Fixpoint run (s : State) (es : list Event) : option State :=
  match es with
  | [] => Some s
  | e :: r =>
      match handle s e with
      | Some s' => run s' r
      | None => None
      end
  end.

(** What the body of the request says of one train and of one track. *)
Definition train_entry (train : Train.t) (j : Js.json) : Prop :=
  Js.keys j = ["id"; "route"; "priority"; "current_delay"]
  /\ Js.member "id" j = Some (Js.JStr (Train.id train))
  /\ Js.member "route" j = Some (Js.JArr (map Js.JStr (Train.route train)))
  /\ (exists p, Js.member "priority" j = Some (Js.JNum p)
                /\ Train.priority train = Js.Fin p
                /\ (p = 0%Q \/ p = 1%Q \/ p = 2%Q))
  /\ Js.member "current_delay" j = Some (Js.number_to_json (Train.current_delay train)).

Definition track_entry (track : Track.t) (j : Js.json) : Prop :=
  Js.keys j = ["id"; "capacity"; "type"]
  /\ Js.member "id" j = Some (Js.JStr (Track.id track))
  /\ Js.member "capacity" j = Some (Js.number_to_json (Track.capacity track))
  /\ Js.member "type" j = Some (Js.JStr (Track.type track))
  /\ Track.type track ∈ element_kinds.

(** The capacity of the track with identity [k]. *)
Definition capacity_of (k : string) (ts : list Track.t) : option Js.number :=
  option_map Track.capacity (find (fun track => String.eqb (Track.id track) k) ts).

(** The trains whose route goes over [k]. *)
Definition trains_over (k : string) (ts : list Train.t) : list string :=
  map Train.id (filter (fun train => bool_decide (k ∈ Train.route train)) ts).

End ScheduleOptimizer.

(** ** MLPredictions.tsx *)

Module MLPredictions.

(** The [newPrediction] cell.  The form's [onChange] handlers replace one
    field of it and keep the others. *)
Record NewPrediction : Type := {
  train_id : string;
  weather : Js.number;
  traffic_density : Js.number;
  hour : Js.number;
  day_of_week : Js.number;
  track_condition : Js.number;
  signal_delay : Js.number;
  platform_availability : Js.number;
  route_complexity : Js.number;
  train_type : string;
  current_delay : Js.number
}.

Definition initial : NewPrediction :=
  {| train_id := "EXP-101";
     weather := Js.Fin 0.0;
     traffic_density := Js.Fin 0.0;
     hour := Js.Fin 12;
     day_of_week := Js.Fin 0;
     track_condition := Js.Fin 1.0;
     signal_delay := Js.Fin 0.0;
     platform_availability := Js.Fin 1.0;
     route_complexity := Js.Fin 1;
     train_type := "Express";
     current_delay := Js.Fin 0.0 |}.

(** [JSON.stringify(newPrediction)] *)
Definition to_json (p : NewPrediction) : Js.json :=
  Js.JObj
    [("train_id", Js.JStr (train_id p));
     ("weather", Js.number_to_json (weather p));
     ("traffic_density", Js.number_to_json (traffic_density p));
     ("hour", Js.number_to_json (hour p));
     ("day_of_week", Js.number_to_json (day_of_week p));
     ("track_condition", Js.number_to_json (track_condition p));
     ("signal_delay", Js.number_to_json (signal_delay p));
     ("platform_availability", Js.number_to_json (platform_availability p));
     ("route_complexity", Js.number_to_json (route_complexity p));
     ("train_type", Js.JStr (train_type p));
     ("current_delay", Js.number_to_json (current_delay p))].

(** The request of [handleNewPrediction]. *)
Definition prediction_request (newPrediction : NewPrediction) : Http.request :=
  {| Http.url := "http://localhost:8000/predict";
     Http.method := "POST";
     Http.headers := Http.json_headers;
     Http.body := to_json newPrediction |}.

(** The ten features of the Delay Predictor (spec, section 4.4), in the
    order the spec lists them. *)
Inductive Feature : Type :=
  | WeatherSeverity
  | TrafficDensity
  | HourOfDay
  | DayOfWeek
  | TrackCondition
  | SignalDelay
  | PlatformAvailability
  | RouteComplexity
  | TrainType
  | CurrentObservedDelay.

Definition features : list Feature :=
  [WeatherSeverity; TrafficDensity; HourOfDay; DayOfWeek; TrackCondition;
   SignalDelay; PlatformAvailability; RouteComplexity; TrainType;
   CurrentObservedDelay].

(** The key under which the page sends a feature. *)
Definition feature_key (f : Feature) : string :=
  match f with
  | WeatherSeverity => "weather"
  | TrafficDensity => "traffic_density"
  | HourOfDay => "hour"
  | DayOfWeek => "day_of_week"
  | TrackCondition => "track_condition"
  | SignalDelay => "signal_delay"
  | PlatformAvailability => "platform_availability"
  | RouteComplexity => "route_complexity"
  | TrainType => "train_type"
  | CurrentObservedDelay => "current_delay"
  end.

(** A closed interval, an end being open when it is [None]. *)
Definition within (lo hi : option Q) (x : Js.number) : bool :=
  match x with
  | Js.Fin q =>
      match lo with Some l => Qle_bool l q | None => true end
      && match hi with Some h => Qle_bool q h | None => true end
  | _ => false
  end.

(** The domains the form declares: the [min] and [max] of its number inputs
    (weather 0-1, traffic density 0-1, hour 0-23). *)
Definition declared_domain (f : Feature) : option (Q * Q) :=
  match f with
  | WeatherSeverity => Some (0%Q, 1%Q)
  | TrafficDensity => Some (0%Q, 1%Q)
  | HourOfDay => Some (0%Q, 23%Q)
  | _ => None
  end.

(** The numeric features of a state, by feature. *)
Definition numeric_feature (p : NewPrediction) (f : Feature) : option Js.number :=
  match f with
  | WeatherSeverity => Some (weather p)
  | TrafficDensity => Some (traffic_density p)
  | HourOfDay => Some (hour p)
  | DayOfWeek => Some (day_of_week p)
  | TrackCondition => Some (track_condition p)
  | SignalDelay => Some (signal_delay p)
  | PlatformAvailability => Some (platform_availability p)
  | RouteComplexity => Some (route_complexity p)
  | TrainType => None
  | CurrentObservedDelay => Some (current_delay p)
  end.

End MLPredictions.

(** ** Dashboard.tsx *)

Module Dashboard.

Inductive TrainStatusKind : Type := on_time | delayed | early.

Record TrainStatus : Type := {
  id : string;
  name : string;
  status : TrainStatusKind;
  delay : Js.number;
  route : string
}.

(** An element of [data.predictions] as the page reads it ([pred.trainId],
    [pred.predictedDelay]), typed as the MLPrediction interface types it. *)
Record Prediction : Type := {
  trainId : string;
  predictedDelay : Js.number
}.

(** The callback of [data.predictions.map] in [fetchTrainStatuses]. *)
Definition to_train_status (pred : Prediction) : TrainStatus :=
  {| id := trainId pred;
     name := trainId pred;
     status := if Js.gtb (predictedDelay pred) (Js.Fin 10) then delayed else on_time;
     delay := predictedDelay pred;
     route := "Route A" |}.

(** How the request for the predictions went, its body decoded. *)
Inductive Fetched : Type :=
  | FetchedOk (predictions : list Prediction)
  | FetchedNotOk
  | FetchRejected.

(** [fetchTrainStatuses]: the [trainStatuses] cell afterwards. *)
Definition fetchTrainStatuses (o : Fetched) (trainStatuses : list TrainStatus)
    : list TrainStatus :=
  match o with
  | FetchedOk predictions => map to_train_status predictions
  | FetchedNotOk => trainStatuses
  | FetchRejected => trainStatuses
  end.

(** The cells of [stats] that count trains. *)
Record Stats : Type := {
  totalTrains : Js.number;
  onTimeTrains : Js.number;
  delayedTrains : Js.number
}.

Definition initial_stats : Stats :=
  {| totalTrains := Js.Fin 0; onTimeTrains := Js.Fin 0; delayedTrains := Js.Fin 0 |}.

Definition has_status (k : TrainStatusKind) (t : TrainStatus) : bool :=
  match status t, k with
  | on_time, on_time | delayed, delayed | early, early => true
  | _, _ => false
  end.

(** The [setStats] of the effect, for the train counters. *)
Definition update_stats (trainStatuses : list TrainStatus) : Stats :=
  {| totalTrains := Js.of_nat (length trainStatuses);
     onTimeTrains := Js.of_nat (length (filter (has_status on_time) trainStatuses));
     delayedTrains := Js.of_nat (length (filter (has_status delayed) trainStatuses)) |}.

(** The statuses on the page after any sequence of fetches, from the empty
    list the page starts with. *)
Definition after_fetches (os : list Fetched) : list TrainStatus :=
  fold_left (fun trainStatuses o => fetchTrainStatuses o trainStatuses) os [].

End Dashboard.

(** ** Percentages shown by Dashboard.tsx and Analytics.tsx *)

Module Percent.

(** A computation that records the divisions it performs, as pairs of
    dividend and divisor. *)
Definition Logged (A : Type) : Type := A * list (Js.number * Js.number).

Definition ret {A} (a : A) : Logged A := (a, []).

Definition bind {A B} (m : Logged A) (k : A -> Logged B) : Logged B :=
  let '(a, l1) := m in
  let '(b, l2) := k a in
  (b, (l1 ++ l2)%list).

Definition divide (x y : Js.number) : Logged Js.number := (Js.div x y, [(x, y)]).

Definition value {A} (m : Logged A) : A := fst m.
Definition divisions {A} (m : Logged A) : list (Js.number * Js.number) := snd m.

(** [total > 0 ? Math.round((part / total) * 100) : 0] *)
Definition percentage (part total : Js.number) : Logged Js.number :=
  if Js.gtb total (Js.Fin 0)
  then bind (divide part total) (fun r => ret (Js.round (Js.mul r (Js.Fin 100))))
  else ret (Js.Fin 0).

(** Dashboard: the on-time rate under the On Time counter. *)
Definition on_time_rate (stats : Dashboard.Stats) : Logged Js.number :=
  percentage (Dashboard.onTimeTrains stats) (Dashboard.totalTrains stats).

(** Analytics: the share of one decision type, [count] of [total_decisions]
    (the same expression in both versions of the page). *)
Definition decision_type_share (count total_decisions : Js.number) : Logged Js.number :=
  percentage count total_decisions.

Definition is_zero (x : Js.number) : Prop :=
  match x with
  | Js.Fin q => (q == 0)%Q
  | _ => False
  end.

(** A division whose divisor passed the test [> 0]. *)
Definition guarded (d : Js.number * Js.number) : Prop :=
  Js.gtb (snd d) (Js.Fin 0) = true.

End Percent.

(** ** Further JavaScript functions the pages use *)

Module JsMore.

(** [Array.prototype.join] on an array of strings *)
Fixpoint join (l : list string) (sep : string) : string :=
  match l with
  | [] => ""
  | x :: r =>
      match r with
      | [] => x
      | _ :: _ => x +:+ sep +:+ join r sep
      end
  end.

(** [s.includes(sep)] *)
Fixpoint includes (s sep : string) : bool :=
  String.prefix sep s
  || match s with
     | String _ r => includes r sep
     | EmptyString => false
     end.

(** [x + y] on numbers *)
Definition add (x y : Js.number) : Js.number :=
  match x, y with
  | Js.NaN, _ | _, Js.NaN => Js.NaN
  | Js.Fin a, Js.Fin b => Js.Fin (a + b)
  | Js.PosInf, Js.NegInf | Js.NegInf, Js.PosInf => Js.NaN
  | Js.PosInf, _ | _, Js.PosInf => Js.PosInf
  | Js.NegInf, _ | _, Js.NegInf => Js.NegInf
  end.

(** [Math.max(x, y)]: [NaN] when an argument is [NaN]. *)
Definition max2 (x y : Js.number) : Js.number :=
  match x, y with
  | Js.NaN, _ | _, Js.NaN => Js.NaN
  | _, _ => if Js.ltb x y then y else x
  end.

(** [Math.max(...l)]: minus infinity for no argument. *)
Definition max_of (l : list Js.number) : Js.number :=
  fold_left max2 l Js.NegInf.

(** 2^53: up to it every integer is a binary64 value, so [parseInt] gives
    the integer a decimal text denotes and not a rounded neighbour. *)
Definition exact_integer_bound : Z := 9007199254740992.

(** [Object.values] of an object used as a map. *)
Definition values {A} (o : list (string * A)) : list A := map snd o.

End JsMore.

(** ** ScheduleOptimizer.tsx: the page with its [loading] and
    [optimizedSchedule] cells *)

Module OptimizerPage.

(** [under_way] are the requests of [handleOptimize] that have not settled. *)
Record Page : Type := {
  config : ScheduleOptimizer.State;
  optimizedSchedule : option Js.json;
  loading : bool;
  under_way : list Http.request
}.

Definition initial : Page :=
  {| config := ScheduleOptimizer.initial;
     optimizedSchedule := None;
     loading := false;
     under_way := [] |}.

Inductive Event : Type :=
  | Edit (e : ScheduleOptimizer.Event)
  | OptimizeClick
  | OptimizeSettle (o : Http.outcome).

(** What [setOptimizedSchedule(data.optimized_schedule)] leaves in the cell
    for the decoded body [data]: reading a member of [null] throws and the
    [catch] keeps the cell; any other value has the member or [undefined]
    ([None]). *)
Definition schedule_after (data : Js.json) (current : option Js.json) : option Js.json :=
  match data with
  | Js.JNull => current
  | _ => Js.member "optimized_schedule" data
  end.

(** [handleOptimize] up to its [await], and from its [await] on.  The
    Optimize button is disabled while [loading]. *)
Definition exec (p : Page) (ev : Event) : option Page :=
  match ev with
  | Edit e =>
      match ScheduleOptimizer.handle (config p) e with
      | Some s => Some {| config := s;
                          optimizedSchedule := optimizedSchedule p;
                          loading := loading p;
                          under_way := under_way p |}
      | None => None
      end
  | OptimizeClick =>
      if loading p then None
      else Some {| config := config p;
                   optimizedSchedule := optimizedSchedule p;
                   loading := true;
                   under_way := under_way p ++ [ScheduleOptimizer.optimize_request (config p)] |}
  | OptimizeSettle o =>
      match under_way p with
      | [] => None
      | _ :: rest =>
          Some {| config := config p;
                  optimizedSchedule :=
                    match o with
                    | Http.Fulfilled response =>
                        if Http.ok response
                        then schedule_after (Http.payload response) (optimizedSchedule p)
                        else optimizedSchedule p
                    | Http.Rejected => optimizedSchedule p
                    end;
                  loading := false;
                  under_way := rest |}
      end
  end.

Fixpoint run (p : Page) (evs : list Event) : option Page :=
  match evs with
  | [] => Some p
  | ev :: r =>
      match exec p ev with
      | Some p' => run p' r
      | None => None
      end
  end.

(** The text the route input shows for a train: [train.route.join(', ')]. *)
Definition route_text (train : ScheduleOptimizer.Train.t) : string :=
  JsMore.join (ScheduleOptimizer.Train.route train) ", ".

(** The ids the page gives: the three initial trains, then [TRAIN-n] for the
    n-th train; the letters from A for the tracks. *)
Definition expected_train_ids (n : nat) : list string :=
  ["EXP-101"; "LOC-78"; "FRT-203"]
  ++ map (fun i => "TRAIN-" +:+ Js.nat_to_string (i + 1)) (seq 3 (n - 3)).

Definition expected_track_ids (n : nat) : list string :=
  map (fun i => Js.fromCharCode (65 + i)) (seq 0 n).

(** The rows of a configuration are where the page put them: the ids are
    the ones it gave, the three initial trains are there, and no route is
    the empty list. *)
Definition rows_kept (s : ScheduleOptimizer.State) : Prop :=
  map ScheduleOptimizer.Train.id (ScheduleOptimizer.trains s)
    = expected_train_ids (length (ScheduleOptimizer.trains s))
  /\ 3 <= length (ScheduleOptimizer.trains s)
  /\ map ScheduleOptimizer.Track.id (ScheduleOptimizer.tracks s)
     = expected_track_ids (length (ScheduleOptimizer.tracks s))
  /\ Forall (fun train => ScheduleOptimizer.Train.route train <> [])
            (ScheduleOptimizer.trains s).

(** No request under way and the button enabled, or one request under way
    and the button disabled. *)
Definition one_request (p : Page) : Prop :=
  (under_way p = [] /\ loading p = false)
  \/ (exists request, under_way p = [request] /\ loading p = true).

(** The events of the Trains card, as opposed to those of the Tracks card. *)
Definition on_trains (e : ScheduleOptimizer.Event) : bool :=
  match e with
  | ScheduleOptimizer.AddTrainClick
  | ScheduleOptimizer.RouteInput _ _
  | ScheduleOptimizer.CurrentDelayInput _ _
  | ScheduleOptimizer.PrioritySelect _ _ => true
  | _ => false
  end.

(** [{ ...track, capacity: c }] *)
Definition with_capacity (c : Js.number) (track : ScheduleOptimizer.Track.t)
    : ScheduleOptimizer.Track.t :=
  ScheduleOptimizer.set_track_field (ScheduleOptimizer.track_capacity c) track.

End OptimizerPage.

(** ** AIDecisions.tsx: the counters of the header *)

Module AIDecisionsView.

Definition has_status (s : AIDecisions.Status) (d : AIDecisions.AIDecision) : bool :=
  bool_decide (AIDecisions.status d = s).

(** [decisions.filter(d => d.status === s).length] *)
Definition count_status (s : AIDecisions.Status) (ds : list AIDecisions.AIDecision) : nat :=
  length (List.filter (has_status s) ds).

(** The resolutions of a list applied in order, each as the update of
    [handleDecision] on success. *)
Definition apply_grants (G : list (string * AIDecisions.Action))
    (ds : list AIDecisions.AIDecision) : list AIDecisions.AIDecision :=
  fold_left (fun acc ka => AIDecisions.mark_resolved ka.1 ka.2 acc) G ds.

End AIDecisionsView.

(** ** MLPredictions.tsx: the list of predictions and its colours *)

Module MLPredictionsView.

Record MLPrediction : Type := {
  trainId : string;
  predictedDelay : Js.number;
  confidence : Js.number;
  factors : list string;
  recommendation : string
}.

(** [data.prediction] of the response to a prediction request. *)
Record WirePrediction : Type := {
  w_train_id : string;
  w_predicted_delay : Js.number;
  w_confidence : Js.number;
  w_factors : list string;
  w_recommendation : string
}.

Definition of_wire (prediction : WirePrediction) : MLPrediction :=
  {| trainId := w_train_id prediction;
     predictedDelay := w_predicted_delay prediction;
     confidence := w_confidence prediction;
     factors := w_factors prediction;
     recommendation := w_recommendation prediction |}.

(** How a prediction request went, its body decoded. *)
Inductive Answer : Type :=
  | AnswerOk (prediction : WirePrediction)
  | AnswerNotOk
  | AnswerRejected.

(** [handleNewPrediction] from its [await] on: the [predictions] cell. *)
Definition after_answer (a : Answer) (prev : list MLPrediction) : list MLPrediction :=
  match a with
  | AnswerOk prediction => of_wire prediction :: prev
  | AnswerNotOk => prev
  | AnswerRejected => prev
  end.

Definition after_answers (answers : list Answer) (prev : list MLPrediction)
    : list MLPrediction :=
  fold_left (fun acc a => after_answer a acc) answers prev.

(** The predictions of the answers that were ok, in order of arrival. *)
Fixpoint accepted_answers (answers : list Answer) : list MLPrediction :=
  match answers with
  | [] => []
  | AnswerOk prediction :: r => of_wire prediction :: accepted_answers r
  | _ :: r => accepted_answers r
  end.

Definition getDelayColor (delay : Js.number) : string :=
  if Js.ltb delay (Js.Fin 5) then "text-green-500"
  else if Js.ltb delay (Js.Fin 15) then "text-yellow-500"
  else "text-red-500".

(** An icon element: the component and its class. *)
Definition getDelayIcon (delay : Js.number) : string * string :=
  if Js.ltb delay (Js.Fin 5) then ("CheckCircle", "h-4 w-4 text-green-500")
  else if Js.ltb delay (Js.Fin 15) then ("Clock", "h-4 w-4 text-yellow-500")
  else ("AlertTriangle", "h-4 w-4 text-red-500").

(** The variant of the delay badge of a prediction card. *)
Definition delay_badge_variant (prediction : MLPrediction) : string :=
  if Js.ltb (predictedDelay prediction) (Js.Fin 5) then "default" else "destructive".

(** The [onChange] of the hour input. *)
Definition on_hour_input (value : string) (prev : MLPredictions.NewPrediction)
    : MLPredictions.NewPrediction :=
  {| MLPredictions.train_id := MLPredictions.train_id prev;
     MLPredictions.weather := MLPredictions.weather prev;
     MLPredictions.traffic_density := MLPredictions.traffic_density prev;
     MLPredictions.hour := Js.parseInt value;
     MLPredictions.day_of_week := MLPredictions.day_of_week prev;
     MLPredictions.track_condition := MLPredictions.track_condition prev;
     MLPredictions.signal_delay := MLPredictions.signal_delay prev;
     MLPredictions.platform_availability := MLPredictions.platform_availability prev;
     MLPredictions.route_complexity := MLPredictions.route_complexity prev;
     MLPredictions.train_type := MLPredictions.train_type prev;
     MLPredictions.current_delay := MLPredictions.current_delay prev |}.

End MLPredictionsView.

(** ** Dashboard.tsx: the page with its effect *)

Module DashboardPage.

Record AIDecision : Type := {
  id : string;
  type : string;
  description : string;
  confidence : Js.number;
  status : AIDecisions.Status;
  timeSaving : Js.number
}.

(** The [stats] cell: the train counters and the two decision figures. *)
Record PageStats : Type := {
  train_counters : Dashboard.Stats;
  pendingDecisions : Js.number;
  timeSaved : Js.number
}.

Definition is_pending (d : AIDecision) : bool :=
  bool_decide (status d = AIDecisions.pending).

(** The object given to [setStats] in the effect. *)
Definition compute_stats (trainStatuses : list Dashboard.TrainStatus)
    (aiDecisions : list AIDecision) : PageStats :=
  {| train_counters := Dashboard.update_stats trainStatuses;
     pendingDecisions := Js.of_nat (length (List.filter is_pending aiDecisions));
     timeSaved := fold_left (fun sum d => JsMore.add sum (timeSaving d))
                            aiDecisions (Js.Fin 0) |}.

(** How the request for the decisions went, its body decoded. *)
Inductive FetchedDecisions : Type :=
  | DecisionsOk (decisions : list AIDecision)
  | DecisionsNotOk
  | DecisionsRejected.

Definition fetchAIDecisions (o : FetchedDecisions) (aiDecisions : list AIDecision)
    : list AIDecision :=
  match o with
  | DecisionsOk decisions => decisions
  | DecisionsNotOk => aiDecisions
  | DecisionsRejected => aiDecisions
  end.

(** The cells of the page and the number of requests not yet settled. *)
Record Page : Type := {
  trainStatuses : list Dashboard.TrainStatus;
  aiDecisions : list AIDecision;
  stats : PageStats;
  train_fetches : nat;
  decision_fetches : nat
}.

(** The effect: it starts both fetches and sets [stats] from the lists of
    the render it runs in. *)
Definition effect (p : Page) : Page :=
  {| trainStatuses := trainStatuses p;
     aiDecisions := aiDecisions p;
     stats := compute_stats (trainStatuses p) (aiDecisions p);
     train_fetches := S (train_fetches p);
     decision_fetches := S (decision_fetches p) |}.

(** After the first render the effect runs once. *)
Definition mounted : Page :=
  effect {| trainStatuses := [];
            aiDecisions := [];
            stats := {| train_counters := Dashboard.initial_stats;
                        pendingDecisions := Js.Fin 0;
                        timeSaved := Js.Fin 0 |};
            train_fetches := 0;
            decision_fetches := 0 |}.

(** The effect runs again after a render in which one of its dependencies,
    the two lengths, has changed. *)
Definition rerender (before after : Page) : Page :=
  if bool_decide (length (trainStatuses after) = length (trainStatuses before)
                  /\ length (aiDecisions after) = length (aiDecisions before))
  then after
  else effect after.

Inductive Event : Type :=
  | TrainsSettle (o : Dashboard.Fetched)
  | DecisionsSettle (o : FetchedDecisions).

Definition exec (p : Page) (ev : Event) : option Page :=
  match ev with
  | TrainsSettle o =>
      match train_fetches p with
      | O => None
      | S n =>
          Some (rerender p
                  {| trainStatuses := Dashboard.fetchTrainStatuses o (trainStatuses p);
                     aiDecisions := aiDecisions p;
                     stats := stats p;
                     train_fetches := n;
                     decision_fetches := decision_fetches p |})
      end
  | DecisionsSettle o =>
      match decision_fetches p with
      | O => None
      | S n =>
          Some (rerender p
                  {| trainStatuses := trainStatuses p;
                     aiDecisions := fetchAIDecisions o (aiDecisions p);
                     stats := stats p;
                     train_fetches := train_fetches p;
                     decision_fetches := n |})
      end
  end.

Fixpoint run (p : Page) (evs : list Event) : option Page :=
  match evs with
  | [] => Some p
  | ev :: r =>
      match exec p ev with
      | Some p' => run p' r
      | None => None
      end
  end.

(** The badge of a train row: [delay > 0 ? `+${delay}m` : 'On Time'], the
    late case carrying the number printed; and its variant. *)
Inductive DelayLabel : Type :=
  | Late (minutes : Js.number)
  | OnTimeLabel.

Definition delay_label (train : Dashboard.TrainStatus) : DelayLabel :=
  if Js.gtb (Dashboard.delay train) (Js.Fin 0)
  then Late (Dashboard.delay train)
  else OnTimeLabel.

Definition row_badge_variant (train : Dashboard.TrainStatus) : string :=
  match Dashboard.status train with
  | Dashboard.delayed => "destructive"
  | _ => "secondary"
  end.

Definition sample_prediction (k : string) (minutes : Q) : Dashboard.Prediction :=
  {| Dashboard.trainId := k; Dashboard.predictedDelay := Js.Fin minutes |}.

(** The train counters count the list shown: the total is its length, and
    the on-time and delayed counters add up to it. *)
Definition counters_consistent (p : Page) : Prop :=
  exists on late,
    train_counters (stats p)
      = {| Dashboard.totalTrains := Js.of_nat (length (trainStatuses p));
           Dashboard.onTimeTrains := Js.of_nat on;
           Dashboard.delayedTrains := Js.of_nat late |}
    /\ on + late = length (trainStatuses p)
    /\ Forall (fun t => Dashboard.status t <> Dashboard.early) (trainStatuses p).

End DashboardPage.

(** ** Analytics.tsx: the bars of the activity by hour *)

Module AnalyticsView.

(** The width of the bar of [count], in percent:
    [Math.max(10, (count / Math.max(...Object.values(hourly_patterns))) * 100)] *)
Definition bar_width (hourly_patterns : list (string * Js.number)) (count : Js.number)
    : Js.number :=
  JsMore.max2 (Js.Fin 10)
    (Js.mul (Js.div count (JsMore.max_of (JsMore.values hourly_patterns))) (Js.Fin 100)).

(** Counts as the service reports them: finite and not negative. *)
Definition is_count (x : Js.number) : Prop :=
  match x with
  | Js.Fin q => (0 <= q)%Q
  | _ => False
  end.

(** A count that is at most [m]. *)
Definition at_most (m : Q) (x : Js.number) : Prop :=
  match x with
  | Js.Fin q => (q <= m)%Q
  | _ => False
  end.

End AnalyticsView.

(** * Properties *)

(** ** The string functions on samples *)

Example parseInt_samples :
  Js.parseInt "2" = Js.of_Z 2 /\ Js.parseInt "  -17px" = Js.of_Z (-17)
  /\ Js.parseInt "0x1F" = Js.of_Z 31 /\ Js.parseInt "" = Js.NaN
  /\ Js.parseInt "1e3" = Js.of_Z 1 /\ Js.parseInt "abc" = Js.NaN.
Proof. repeat split; reflexivity. Qed.

Example split_samples :
  Js.split "A, B, C" ", " = ["A"; "B"; "C"] /\ Js.split "" ", " = [""]
  /\ Js.split "A,B" ", " = ["A,B"] /\ Js.split "A, " ", " = ["A"; ""].
Proof. repeat split; reflexivity. Qed.

(** ** Helpers on lists and association lists *)

Section ListFacts.
Context {A B C : Type}.

Lemma Forall2_map_r_elem (P : A -> B -> Prop) (Q : A -> C -> Prop)
    (f : B -> C) (l : list A) (k : list B) :
  Forall2 P l k ->
  (forall x y, x ∈ l -> P x y -> Q x (f y)) ->
  Forall2 Q l (map f k).
Proof.
  induction 1 as [|x y l k Hxy _ IH]; intros HPQ; simpl; constructor.
  - apply HPQ; [left | exact Hxy].
  - apply IH. intros x' y' Hin. apply HPQ. right. exact Hin.
Qed.

Lemma Forall2_join (P : A -> B -> Prop) (Q : A -> C -> Prop)
    (R : B -> C -> Prop) (l : list A) (k1 : list B) (k2 : list C) :
  Forall2 P l k1 -> Forall2 Q l k2 ->
  (forall x y z, P x y -> Q x z -> R y z) ->
  Forall2 R k1 k2.
Proof.
  intros H1. revert k2.
  induction H1 as [|x y l k1 Hxy _ IH]; intros k2 H2 HR;
    inversion H2; subst; constructor; eauto.
Qed.

Lemma Forall2_map_self (P : A -> B -> Prop) (f : A -> B) (l : list A) :
  Forall (fun x => P x (f x)) l -> Forall2 P l (map f l).
Proof. induction 1; simpl; constructor; assumption. Qed.

Lemma Forall2_elem_r (P : A -> B -> Prop) (l : list A) (k : list B) (y : B) :
  Forall2 P l k -> y ∈ k -> exists x, x ∈ l /\ P x y.
Proof.
  induction 1 as [|x y' l k Hxy _ IH]; intros Hin.
  - inversion Hin.
  - apply elem_of_cons in Hin as [-> | Hin].
    + exists x. split; [left | exact Hxy].
    + destruct (IH Hin) as (x' & Hx' & HP). exists x'. split; [right|]; assumption.
Qed.
End ListFacts.

Section AssocFacts.
Context {V : Type}.

Lemma assoc_app (k : string) (l1 l2 : list (string * V)) :
  Js.assoc k (l1 ++ l2) =
  match Js.assoc k l1 with Some v => Some v | None => Js.assoc k l2 end.
Proof.
  induction l1 as [|[k' v] l1 IH]; simpl; [reflexivity|].
  destruct (String.eqb k' k); [reflexivity | exact IH].
Qed.

Lemma assoc_Some_key (k : string) (v : V) (l : list (string * V)) :
  Js.assoc k l = Some v -> k ∈ map fst l.
Proof.
  induction l as [|[k' v'] l IH]; simpl; [discriminate|].
  destruct (String.eqb_spec k' k) as [-> | _]; intros H.
  - left.
  - right. auto.
Qed.

Lemma assoc_assign (k k' : string) (v : V) (l : list (string * V)) :
  Js.assoc k (Js.assign k' v l) = if String.eqb k' k then Some v else Js.assoc k l.
Proof.
  induction l as [|[k2 v2] l IH]; simpl; [reflexivity|].
  destruct (String.eqb_spec k2 k') as [-> | Hne]; simpl.
  - destruct (String.eqb k' k); reflexivity.
  - rewrite IH.
    destruct (String.eqb_spec k2 k) as [-> | _]; [|reflexivity].
    destruct (String.eqb_spec k' k) as [-> | _]; [contradiction | reflexivity].
Qed.
End AssocFacts.

(** ** AIDecisions: resolution requests and the lifecycle of a decision *)

Module AIDecisionsFacts.
Import AIDecisions.

Lemma with_status_id s d : id (with_status s d) = id d.
Proof. reflexivity. Qed.

Lemma resolved_status_not_pending action : resolved_status action <> pending.
Proof. destruct action; discriminate. Qed.

Lemma after_response_failed o decisionId action ds :
  Http.succeeded o = false -> after_response o decisionId action ds = ds.
Proof.
  destruct o as [r|]; simpl; [|reflexivity].
  intros ->. reflexivity.
Qed.

Lemma after_response_succeeded o decisionId action ds :
  Http.succeeded o = true ->
  after_response o decisionId action ds = mark_resolved decisionId action ds.
Proof.
  destruct o as [r|]; simpl; [|discriminate].
  intros ->. reflexivity.
Qed.

(** A button is on the page exactly for the pending decisions. *)
Lemma offered_iff_pending ds decisionId action :
  (decisionId, action) ∈ offered_controls ds <->
  exists d, d ∈ ds /\ id d = decisionId /\ status d = pending.
Proof.
  unfold offered_controls. rewrite list_elem_of_In, in_flat_map.
  split.
  - intros (d & Hd & Hc). exists d. rewrite list_elem_of_In. split; [exact Hd|].
    unfold controls in Hc. destruct (status d); simpl in Hc; [|tauto..].
    destruct Hc as [Hc | [Hc | []]]; inversion Hc; auto.
  - intros (d & Hd & Hid & Hst). exists d. rewrite <- list_elem_of_In. split; [exact Hd|].
    unfold controls. rewrite Hst, Hid. destruct action; simpl; auto.
Qed.

(** Identities tell the decisions of a list apart. *)
Lemma same_id_same_decision (ds : list AIDecision) d d' :
  NoDup (map id ds) -> d ∈ ds -> d' ∈ ds -> id d = id d' -> d = d'.
Proof.
  induction ds as [|x ds IH]; intros Hnd Hd Hd' Heq; [inversion Hd|].
  simpl in Hnd. apply NoDup_cons in Hnd as [Hx Hnd].
  assert (Hmap : forall y : AIDecision, y ∈ ds -> id y ∈ map id ds).
  { intros y Hy. apply list_elem_of_In, in_map, list_elem_of_In, Hy. }
  apply elem_of_cons in Hd as [-> | Hd]; apply elem_of_cons in Hd' as [-> | Hd'].
  - reflexivity.
  - exfalso. apply Hx. rewrite Heq. auto.
  - exfalso. apply Hx. rewrite <- Heq. auto.
  - auto.
Qed.

Lemma remove_one_elem x y l : y ∈ remove_one x l -> y ∈ l.
Proof.
  induction l as [|z l IH]; simpl; [auto|].
  case_bool_decide; intros Hy.
  - right. exact Hy.
  - apply elem_of_cons in Hy as [-> | Hy]; [left | right; auto].
Qed.

Lemma granted_app es1 es2 : granted (es1 ++ es2) = granted es1 ++ granted es2.
Proof.
  induction es1 as [|[k a | k a o] es1 IH]; simpl; [reflexivity | exact IH |].
  destruct (Http.succeeded o); simpl; congruence.
Qed.

Lemma run_app c es1 es2 :
  run c (es1 ++ es2) = match run c es1 with Some c1 => run c1 es2 | None => None end.
Proof.
  revert c. induction es1 as [|e es1 IH]; intros c; simpl; [reflexivity|].
  destruct (exec c e); [apply IH | reflexivity].
Qed.

Lemma follows_id G d0 d : follows G d0 d -> id d = id d0.
Proof.
  unfold follows. destruct (Js.assoc (id d0) G); [intros [_ ->] | intros ->]; reflexivity.
Qed.

Lemma consistent_start loaded : consistent loaded [] (start loaded).
Proof.
  split; simpl; [|constructor].
  induction loaded; constructor; [reflexivity | assumption].
Qed.

Lemma consistent_click loaded G c decisionId action c' :
  consistent loaded G c ->
  exec c (Click decisionId action) = Some c' ->
  consistent loaded G c'.
Proof.
  intros [Hds Hfl]. simpl. case_bool_decide as Hoff; [|discriminate].
  intros [= <-]. split; simpl; [exact Hds|].
  apply Forall_app. split; [exact Hfl|]. constructor; [|constructor].
  apply offered_iff_pending in Hoff as (d & Hd & Hid & Hst).
  destruct (Forall2_elem_r _ _ _ _ Hds Hd) as (d0 & Hd0 & Hf).
  exists d0. split; [exact Hd0|]. simpl.
  pose proof (follows_id _ _ _ Hf) as Hid0.
  unfold follows in Hf. destruct (Js.assoc (id d0) G) as [a'|].
  - destruct Hf as [_ ->]. simpl in Hst. destruct (resolved_status_not_pending _ Hst).
  - subst d0. auto.
Qed.

Lemma consistent_grant loaded G c decisionId action :
  NoDup (map id loaded) ->
  decisionId ∉ map fst G ->
  (decisionId, action) ∈ in_flight c ->
  consistent loaded G c ->
  consistent loaded (G ++ [(decisionId, action)])
    {| decisions := mark_resolved decisionId action (decisions c);
       in_flight := remove_one (decisionId, action) (in_flight c) |}.
Proof.
  intros Hnd Hnew Hin [Hds Hfl]. split; simpl.
  - rewrite Forall_forall in Hfl.
    destruct (Hfl _ Hin) as (p & Hp & Hpid & Hpst). simpl in Hpid.
    unfold mark_resolved.
    eapply Forall2_map_r_elem; [exact Hds|].
    intros d0 d Hd0 Hf. pose proof (follows_id _ _ _ Hf) as Hid.
    unfold follows in *. rewrite assoc_app. rewrite Hid.
    destruct (Js.assoc (id d0) G) as [a'|] eqn:HG.
    + destruct (String.eqb_spec (id d0) decisionId) as [Heq | _]; [|exact Hf].
      exfalso. apply Hnew. rewrite <- Heq. eapply assoc_Some_key, HG.
    + subst d. simpl. rewrite String.eqb_sym.
      destruct (String.eqb_spec (id d0) decisionId) as [Heq | _]; [|reflexivity].
      split; [|reflexivity].
      rewrite <- (same_id_same_decision loaded p d0); auto. congruence.
  - apply Forall_forall. intros x Hx. rewrite Forall_forall in Hfl.
    apply Hfl. eapply remove_one_elem, Hx.
Qed.

Lemma consistent_refusal loaded G c decisionId action :
  consistent loaded G c ->
  consistent loaded G
    {| decisions := decisions c;
       in_flight := remove_one (decisionId, action) (in_flight c) |}.
Proof.
  intros [Hds Hfl]. split; simpl; [exact Hds|].
  apply Forall_forall. intros x Hx. rewrite Forall_forall in Hfl.
  apply Hfl. eapply remove_one_elem, Hx.
Qed.

Lemma consistent_run loaded es : forall G c c',
  NoDup (map id loaded) ->
  NoDup (map fst (G ++ granted es)) ->
  consistent loaded G c ->
  run c es = Some c' ->
  consistent loaded (G ++ granted es) c'.
Proof.
  induction es as [|e es IH]; intros G c c' Hnd HG Hc Hrun; simpl in *.
  - rewrite app_nil_r. congruence.
  - destruct (exec c e) as [c1|] eqn:He; [|discriminate].
    destruct e as [k a | k a o].
    + simpl granted in *.
      apply (IH G c1 c' Hnd HG); [|exact Hrun].
      exact (consistent_click _ _ _ _ _ _ Hc He).
    + simpl in He. case_bool_decide as Hin; [|discriminate].
      injection He as <-. simpl granted in *.
      destruct (Http.succeeded o) eqn:Ho.
      * rewrite (after_response_succeeded _ _ _ _ Ho) in Hrun.
        replace (G ++ (k, a) :: granted es) with ((G ++ [(k, a)]) ++ granted es) in *
          by (rewrite <- app_assoc; reflexivity).
        refine (IH _ _ c' Hnd HG _ Hrun).
        apply consistent_grant; auto.
        rewrite !map_app in HG. apply NoDup_app in HG as [HG _].
        apply NoDup_app in HG as (_ & HG & _).
        intros Hk. apply (HG _ Hk). simpl. left.
      * rewrite (after_response_failed _ _ _ _ Ho) in Hrun.
        refine (IH _ _ c' Hnd HG _ Hrun).
        apply consistent_refusal. exact Hc.
Qed.


(** A resolution is granted only to a request that a click started. *)
Lemma granted_was_clicked es : forall c c' ka,
  run c es = Some c' -> ka ∈ granted es -> ka ∈ in_flight c \/ ka ∈ clicks es.
Proof.
  induction es as [|e es IH]; intros c c' ka Hrun Hg; simpl in *; [inversion Hg|].
  destruct (exec c e) as [c1|] eqn:He; [|discriminate].
  destruct e as [k a | k a o]; simpl in He, Hg |- *.
  - case_bool_decide; [|discriminate]. injection He as <-.
    destruct (IH _ _ _ Hrun Hg) as [Hfl | Hcl]; simpl in *.
    + apply elem_of_app in Hfl as [Hfl | Hfl]; [left; exact Hfl|].
      apply list_elem_of_singleton in Hfl as ->. right. left.
    + right. right. exact Hcl.
  - case_bool_decide as Hin; [|discriminate]. injection He as <-.
    assert (Hrest : ka ∈ granted es -> ka ∈ in_flight c \/ ka ∈ clicks es).
    { intros Hg'. destruct (IH _ _ _ Hrun Hg') as [Hfl | Hcl]; simpl in *.
      - left. eapply remove_one_elem, Hfl.
      - right. exact Hcl. }
    destruct (Http.succeeded o); [|auto].
    apply elem_of_cons in Hg as [-> | Hg]; auto.
Qed.

Lemma assoc_Some_elem {V} (k : string) (v : V) l : Js.assoc k l = Some v -> (k, v) ∈ l.
Proof.
  induction l as [|[k' v'] l IH]; simpl; [discriminate|].
  destruct (String.eqb_spec k' k) as [-> | _].
  - intros [= ->]. left.
  - intros Hl. right. auto.
Qed.

(** C3. The Accept and Reject buttons are on the page exactly for the pending
    decisions; the state update gives the decisions with the clicked id the
    status of the action and leaves every other decision as it is; and along
    any run of the page (clicks and settling requests in any order) in which
    the decisions have distinct ids and the service grants at most one
    resolution per id, a decision between two points of the run is either
    unchanged or has moved from pending to accepted or rejected by a clicked
    action: a resolved decision never changes again. *)
Theorem decision_lifecycle :
  (forall ds decisionId action,
      (decisionId, action) ∈ offered_controls ds <->
      exists d, d ∈ ds /\ id d = decisionId /\ status d = pending)
  /\ (forall decisionId action prev,
      Forall2 (fun d d' =>
                 (id d = decisionId
                  /\ d' = with_status (resolved_status action) d
                  /\ status d' = match action with
                                 | accept => accepted
                                 | reject => rejected
                                 end)
                 \/ (id d <> decisionId /\ d' = d))
              prev (mark_resolved decisionId action prev))
  /\ (forall loaded es1 es2 c1 c2,
      NoDup (map id loaded) ->
      resolves_once (es1 ++ es2) ->
      run (start loaded) es1 = Some c1 ->
      run c1 es2 = Some c2 ->
      Forall2 (lifecycle_step (clicks (es1 ++ es2))) (decisions c1) (decisions c2)).
Proof.
  split; [exact offered_iff_pending | split].
  - intros k a prev. unfold mark_resolved.
    induction prev as [|d prev IH]; simpl; constructor; [|exact IH].
    destruct (String.eqb_spec (id d) k); [left | right]; auto.
  - intros loaded es1 es2 c1 c2 Hnd Hones Hrun1 Hrun2.
    unfold resolves_once in Hones. rewrite granted_app in Hones.
    assert (Hc1 : consistent loaded ([] ++ granted es1) c1).
    { apply (consistent_run loaded es1 [] (start loaded) c1); auto.
      - simpl. rewrite map_app in Hones. apply NoDup_app in Hones as [H1 _]. exact H1.
      - apply consistent_start. }
    simpl in Hc1.
    pose proof (consistent_run loaded es2 (granted es1) c1 c2 Hnd Hones Hc1 Hrun2)
      as Hc2.
    assert (Hall : run (start loaded) (es1 ++ es2) = Some c2).
    { rewrite run_app, Hrun1. exact Hrun2. }
    destruct Hc1 as [Hd1 _], Hc2 as [Hd2 _].
    apply (Forall2_join _ _ _ _ _ _ Hd1 Hd2).
    intros d0 d1 d2 Hf1 Hf2. unfold follows in Hf1, Hf2.
    rewrite assoc_app in Hf2.
    destruct (Js.assoc (id d0) (granted es1)) as [a1|].
    + left. destruct Hf1 as [_ ->], Hf2 as [_ ->]. reflexivity.
    + subst d1. destruct (Js.assoc (id d0) (granted es2)) as [a2|] eqn:Hg2.
      * right. destruct Hf2 as [Hp ->]. split; [exact Hp|]. exists a2.
        split; [|reflexivity].
        assert (Hg : (id d0, a2) ∈ granted (es1 ++ es2)).
        { rewrite granted_app. apply elem_of_app. right.
          apply assoc_Some_elem, Hg2. }
        destruct (granted_was_clicked _ _ _ _ Hall Hg) as [Hfl | Hcl];
          [inversion Hfl | exact Hcl].
      * left. exact Hf2.
Qed.

(** A run on which the theorem applies: two clicks on the same pending
    decision before either request settles; the service grants the rejection
    and refuses the acceptance. *)
Lemma decision_lifecycle_witness :
  let loaded := [sample_decision "d1" pending; sample_decision "d2" accepted] in
  let es1 := [Click "d1" accept; Click "d1" reject] in
  let es2 := [Settle "d1" reject granted_ok; Settle "d1" accept refused] in
  let c1 := {| decisions := loaded; in_flight := [("d1", accept); ("d1", reject)] |} in
  let c2 := {| decisions := [sample_decision "d1" rejected; sample_decision "d2" accepted];
               in_flight := [] |} in
  NoDup (map id loaded) /\ resolves_once (es1 ++ es2)
  /\ run (start loaded) es1 = Some c1 /\ run c1 es2 = Some c2
  /\ Forall2 (lifecycle_step (clicks (es1 ++ es2))) (decisions c1) (decisions c2).
Proof.
  intros loaded es1 es2 c1 c2.
  assert (H1 : NoDup (map id loaded)).
  { apply (bool_decide_unpack _). vm_compute. exact I. }
  assert (H2 : resolves_once (es1 ++ es2)).
  { apply (bool_decide_unpack _). vm_compute. exact I. }
  assert (H3 : run (start loaded) es1 = Some c1) by (vm_compute; reflexivity).
  assert (H4 : run c1 es2 = Some c2) by (vm_compute; reflexivity).
  repeat split; try assumption.
  exact (proj2 (proj2 decision_lifecycle) loaded es1 es2 c1 c2 H1 H2 H3 H4).
Defined.

(** Without the service's guarantee the page itself does not keep a resolved
    decision: when both requests of the run above are granted, the second
    grant overwrites the first. *)
Remark second_grant_overwrites :
  let loaded := [sample_decision "d1" pending] in
  let es := [Click "d1" accept; Click "d1" reject;
             Settle "d1" accept granted_ok; Settle "d1" reject granted_ok] in
  option_map decisions (run (start loaded) (firstn 3 es)) = Some [sample_decision "d1" accepted]
  /\ option_map decisions (run (start loaded) es) = Some [sample_decision "d1" rejected].
Proof. split; vm_compute; reflexivity. Qed.

(** C3 as stated, without the two conditions, fails.  With distinct ids: two
    clicks on a pending decision before either request settles, both
    granted, take the decision from accepted to rejected.  With one grant
    only: of two loaded decisions with the same id, one pending and one
    accepted, the rejection of the pending one also turns the accepted one
    into rejected. *)
Lemma lifecycle_needs_single_grant_and_distinct_ids :
  (let loaded := [sample_decision "d1" pending] in
   let es1 := [Click "d1" accept; Click "d1" reject; Settle "d1" accept granted_ok] in
   let es2 := [Settle "d1" reject granted_ok] in
   let c1 := {| decisions := [sample_decision "d1" accepted];
                in_flight := [("d1", reject)] |} in
   let c2 := {| decisions := [sample_decision "d1" rejected]; in_flight := [] |} in
   NoDup (map id loaded)
   /\ run (start loaded) es1 = Some c1 /\ run c1 es2 = Some c2
   /\ ~ Forall2 (lifecycle_step (clicks (es1 ++ es2))) (decisions c1) (decisions c2))
  /\ (let loaded := [sample_decision "d1" pending; sample_decision "d1" accepted] in
      let es2 := [Click "d1" reject; Settle "d1" reject granted_ok] in
      let c2 := {| decisions := [sample_decision "d1" rejected;
                                 sample_decision "d1" rejected];
                   in_flight := [] |} in
      resolves_once ([] ++ es2)
      /\ run (start loaded) [] = Some (start loaded) /\ run (start loaded) es2 = Some c2
      /\ ~ Forall2 (lifecycle_step (clicks ([] ++ es2)))
                   (decisions (start loaded)) (decisions c2)).
Proof.
  split.
  - intros loaded es1 es2 c1 c2.
    split; [apply (bool_decide_unpack _); vm_compute; exact I|].
    split; [vm_compute; reflexivity|]. split; [vm_compute; reflexivity|].
    intros Hall. inversion Hall as [|d d' ? ? Hstep _]; subst.
    destruct Hstep as [Heq | [Hpending _]]; discriminate.
  - intros loaded es2 c2.
    split; [apply (bool_decide_unpack _); vm_compute; exact I|].
    split; [reflexivity|]. split; [vm_compute; reflexivity|].
    intros Hall. inversion Hall as [|? ? ? ? _ Hrest]; subst.
    inversion Hrest as [|d d' ? ? Hstep _]; subst.
    destruct Hstep as [Heq | [Hpending _]]; discriminate.
Qed.

(** C4. When the resolution request does not come back with a success
    response (a response that is not ok, or a rejected fetch), [handleDecision]
    leaves the [decisions] state as it was, also when run between other
    events of the page. *)
Theorem failed_resolution_keeps_decisions
    (fetch : Http.request -> Http.outcome) decisionId action ds :
  Http.succeeded (fetch (resolution_request decisionId action)) = false ->
  snd (handleDecision fetch decisionId action ds) = ds
  /\ forall c c',
       exec c (Settle decisionId action (fetch (resolution_request decisionId action)))
         = Some c' ->
       decisions c' = decisions c.
Proof.
  intros Hfail. split.
  - unfold handleDecision. simpl. apply after_response_failed, Hfail.
  - intros c c'. simpl. case_bool_decide; [|discriminate].
    intros [= <-]. simpl. apply after_response_failed, Hfail.
Qed.

Lemma failed_resolution_keeps_decisions_witness :
  let ds := [sample_decision "d1" pending; sample_decision "d2" accepted] in
  Http.succeeded ((fun _ => refused) (resolution_request "d1" accept)) = false
  /\ snd (handleDecision (fun _ => refused) "d1" accept ds) = ds.
Proof.
  intros ds. split; [reflexivity|].
  apply (failed_resolution_keeps_decisions (fun _ => refused) "d1" accept ds).
  reflexivity.
Defined.

(** C5. The request of [handleDecision] carries the decision id (in its
    URL), and in its body exactly an action that is accept or reject, a
    controller identity, a feedback score (0.9 on accept, 0.1 on reject, so
    within 0 and 1) and a context text; and of the response the handler uses
    the success flag only. *)
Theorem resolution_request_payload
    (fetch : Http.request -> Http.outcome) decisionId action ds :
  let request := fst (handleDecision fetch decisionId action ds) in
  Http.url request
    = "http://localhost:8000/decisions/" +:+ decisionId +:+ "/" +:+ action_text action
  /\ Http.method request = "POST"
  /\ Js.keys (Http.body request) = ["action"; "controller_id"; "feedback_score"; "context"]
  /\ (exists text, Js.member "action" (Http.body request) = Some (Js.JStr text)
                   /\ text = action_text action
                   /\ (text = "accept" \/ text = "reject"))
  /\ Js.member "controller_id" (Http.body request) = Some (Js.JStr "controller-001")
  /\ (exists q, Js.member "feedback_score" (Http.body request) = Some (Js.JNum q)
                /\ q = match action with accept => 0.9%Q | reject => 0.1%Q end
                /\ (0 <= q)%Q /\ (q <= 1)%Q)
  /\ (exists text, Js.member "context" (Http.body request) = Some (Js.JStr text)
                   /\ text = match action with
                             | accept => "accepted decision"
                             | reject => "rejected decision"
                             end)
  /\ snd (handleDecision fetch decisionId action ds)
     = if Http.succeeded (fetch request) then mark_resolved decisionId action ds else ds.
Proof.
  simpl. repeat split.
  - exists (action_text action). repeat split. destruct action; auto.
  - destruct action; simpl; eexists; repeat split; try reflexivity;
      apply Qle_bool_imp_le; reflexivity.
  - destruct action; simpl; eexists; split; reflexivity.
  - destruct (fetch _) as [r|]; simpl; [destruct (Http.ok r)|]; reflexivity.
Qed.

End AIDecisionsFacts.

(** ** ScheduleOptimizer: the configuration and the optimize request *)

Module ScheduleOptimizerFacts.
Import ScheduleOptimizer.

Lemma run_reachable es : forall s s', reachable s -> run s es = Some s' -> reachable s'.
Proof.
  induction es as [|e es IH]; intros s s' Hr; simpl.
  - intros [= <-]. exact Hr.
  - destruct (handle s e) as [s1|] eqn:He; [|discriminate].
    apply IH. exact (reachable_event s e s1 Hr He).
Qed.

Ltac in_domain := unfold priority_ok, kind_ok, priority_domain, element_kinds; simpl;
  repeat constructor.

Lemma option_priority_in_domain o :
  Js.parseInt (priority_option_value o) ∈ priority_domain.
Proof. destruct o; in_domain. Qed.

Lemma option_type_in_kinds o : type_option_value o ∈ element_kinds.
Proof. destruct o; in_domain. Qed.

Lemma initial_ok :
  Forall priority_ok (trains initial) /\ Forall kind_ok (tracks initial).
Proof. split; repeat (constructor; [in_domain|]); constructor. Qed.

(** The handlers keep the priorities within the three classes and the kinds
    within the three kinds. *)
Lemma handle_keeps_domains s e s' :
  handle s e = Some s' ->
  Forall priority_ok (trains s) /\ Forall kind_ok (tracks s) ->
  Forall priority_ok (trains s') /\ Forall kind_ok (tracks s').
Proof.
  intros He [Hp Hk].
  destruct e as [| |i v|i v|i o|i v|i o]; simpl in He;
    unfold updateTrain, updateTrack in He.
  - injection He as <-. simpl. split; [|exact Hk].
    apply Forall_app. split; [exact Hp|]. constructor; [in_domain | constructor].
  - injection He as <-. simpl. split; [exact Hp|].
    apply Forall_app. split; [exact Hk|]. constructor; [in_domain | constructor].
  - destruct (trains s !! i) as [t|] eqn:Hi; [|discriminate]. injection He as <-.
    simpl. split; [|exact Hk]. apply Forall_insert; [exact Hp|].
    exact (proj1 (Forall_lookup _ _) Hp i t Hi).
  - destruct (trains s !! i) as [t|] eqn:Hi; [|discriminate]. injection He as <-.
    simpl. split; [|exact Hk]. apply Forall_insert; [exact Hp|].
    exact (proj1 (Forall_lookup _ _) Hp i t Hi).
  - destruct (trains s !! i) as [t|] eqn:Hi; [|discriminate]. injection He as <-.
    simpl. split; [|exact Hk]. apply Forall_insert; [exact Hp|].
    apply option_priority_in_domain.
  - destruct (tracks s !! i) as [t|] eqn:Hi; [|discriminate]. injection He as <-.
    simpl. split; [exact Hp|]. apply Forall_insert; [exact Hk|].
    exact (proj1 (Forall_lookup _ _) Hk i t Hi).
  - destruct (tracks s !! i) as [t|] eqn:Hi; [|discriminate]. injection He as <-.
    simpl. split; [exact Hp|]. apply Forall_insert; [exact Hk|].
    apply option_type_in_kinds.
Qed.

Lemma reachable_domains s :
  reachable s -> Forall priority_ok (trains s) /\ Forall kind_ok (tracks s).
Proof.
  induction 1 as [|s e s' _ IH He]; [exact initial_ok|].
  exact (handle_keeps_domains s e s' He IH).
Qed.


(** C8. Every train of the configuration has a priority among 0 (low,
    freight), 1 (medium, local) and 2 (high, express), in that order: the
    initial trains, the train [addTrain] appends (priority 1), the three
    options of the priority selector (values 0, 1 and 2), and so every train
    of every configuration the page reaches. *)
Theorem priorities_in_domain :
  priority_domain = [Js.of_Z 0; Js.of_Z 1; Js.of_Z 2]
  /\ Js.ltb (Js.of_Z 0) (Js.of_Z 1) = true /\ Js.ltb (Js.of_Z 1) (Js.of_Z 2) = true
  /\ Forall priority_ok (trains initial)
  /\ (forall s, exists newTrain,
         trains (addTrain s) = trains s ++ [newTrain]
         /\ Train.priority newTrain = Js.of_Z 1)
  /\ map (fun o => Js.parseInt (priority_option_value o))
         [LowFreight; MediumLocal; HighExpress]
     = [Js.of_Z 0; Js.of_Z 1; Js.of_Z 2]
  /\ (forall s, reachable s -> Forall priority_ok (trains s)).
Proof.
  split; [reflexivity|]. split; [reflexivity|]. split; [reflexivity|].
  split; [exact (proj1 initial_ok)|].
  split; [intros s; eexists; split; reflexivity|].
  split; [reflexivity|].
  intros s Hs. exact (proj1 (reachable_domains s Hs)).
Qed.

(** A reached configuration: a train added, then set to high priority and
    given a route and a delay. *)
Lemma priorities_in_domain_witness :
  let es := [AddTrainClick; PrioritySelect 3 HighExpress;
             RouteInput 3 "C, F"; CurrentDelayInput 3 "7"] in
  exists s, run initial es = Some s /\ reachable s /\ Forall priority_ok (trains s)
            /\ map Train.priority (trains s)
               = [Js.of_Z 2; Js.of_Z 1; Js.of_Z 0; Js.of_Z 2].
Proof.
  intros es.
  destruct (run initial es) as [s|] eqn:Hrun; [|discriminate Hrun].
  exists s.
  assert (Hs : reachable s) by exact (run_reachable es initial s reachable_initial Hrun).
  split; [reflexivity|]. split; [exact Hs|].
  split; [exact (proj2 (proj2 (proj2 (proj2 (proj2 (proj2 priorities_in_domain))))) s Hs)|].
  vm_compute in Hrun. injection Hrun as <-. reflexivity.
Defined.

(** C6. The initial configuration has the three trains of the example
    scenario with their priorities (EXP-101 2, LOC-78 1, FRT-203 0) and the
    tracks A, B and C with capacities 1, 2 and 1; each of the three tracks is
    on the route of EXP-101 and of one of the other two trains: A is shared
    with LOC-78, B and C are shared with FRT-203. *)
Theorem default_configuration_is_example_scenario :
  map (fun train => (Train.id train, Train.priority train)) (trains initial)
    = [("EXP-101", Js.of_Z 2); ("LOC-78", Js.of_Z 1); ("FRT-203", Js.of_Z 0)]
  /\ capacity_of "A" (tracks initial) = Some (Js.of_Z 1)
  /\ capacity_of "B" (tracks initial) = Some (Js.of_Z 2)
  /\ capacity_of "C" (tracks initial) = Some (Js.of_Z 1)
  /\ trains_over "A" (trains initial) = ["EXP-101"; "LOC-78"]
  /\ trains_over "B" (trains initial) = ["EXP-101"; "FRT-203"]
  /\ trains_over "C" (trains initial) = ["EXP-101"; "FRT-203"]
  /\ Forall (fun track => element_invariant track = true) (tracks initial).
Proof.
  repeat split; try reflexivity.
  repeat (constructor; [reflexivity|]). constructor.
Qed.

(** The parts of the NetworkElement invariant the handlers do keep: the
    initial tracks satisfy it, [addTrack] appends a track that does, a choice
    in the type selector keeps it, and a capacity edit keeps it when the text
    typed is read as an integer that is at least 1. *)
Lemma element_invariant_kept :
  Forall (fun track => element_invariant track = true) (tracks initial)
  /\ (forall s, Forall (fun track => element_invariant track = true) (tracks s) ->
         Forall (fun track => element_invariant track = true) (tracks (addTrack s)))
  /\ (forall s index o s',
         Forall (fun track => element_invariant track = true) (tracks s) ->
         handle s (TypeSelect index o) = Some s' ->
         Forall (fun track => element_invariant track = true) (tracks s'))
  /\ (forall s index value s',
         Forall (fun track => element_invariant track = true) (tracks s) ->
         positive_integer (Js.parseInt value) = true ->
         handle s (CapacityInput index value) = Some s' ->
         Forall (fun track => element_invariant track = true) (tracks s')).
Proof.
  split; [repeat (constructor; [reflexivity|]); constructor|].
  split; [|split].
  - intros s Hs. simpl. apply Forall_app. split; [exact Hs|].
    constructor; [reflexivity | constructor].
  - intros s i o s' Hs. simpl. unfold updateTrack.
    destruct (tracks s !! i) as [t|] eqn:Hi; [|discriminate]. intros [= <-]. simpl.
    apply Forall_insert; [exact Hs|].
    pose proof (proj1 (Forall_lookup _ _) Hs i t Hi) as Ht.
    unfold element_invariant in *. simpl.
    apply andb_true_iff in Ht as [Hc _]. rewrite Hc. destruct o; reflexivity.
  - intros s i v s' Hs Hv. simpl. unfold updateTrack.
    destruct (tracks s !! i) as [t|] eqn:Hi; [|discriminate]. intros [= <-]. simpl.
    apply Forall_insert; [exact Hs|].
    pose proof (proj1 (Forall_lookup _ _) Hs i t Hi) as Ht.
    unfold element_invariant in *. simpl.
    apply andb_true_iff in Ht as [_ Hk]. rewrite Hv, Hk. reflexivity.
Qed.

(** C7, at the failing inputs.  Typing 0 into the capacity field of track A,
    or emptying the field, is stored as it is read by [parseInt]: the track
    then has capacity 0, or [NaN], and the NetworkElement invariant is lost in
    a reached configuration. *)
Theorem capacity_edit_breaks_invariant :
  (exists s, handle initial (CapacityInput 0 "0") = Some s
             /\ reachable s
             /\ map Track.capacity (tracks s)
                = [Js.of_Z 0; Js.of_Z 2; Js.of_Z 1; Js.of_Z 1; Js.of_Z 1; Js.of_Z 1]
             /\ map element_invariant (tracks s) = [false; true; true; true; true; true])
  /\ (exists s, handle initial (CapacityInput 0 "") = Some s
               /\ reachable s
               /\ map Track.capacity (tracks s)
                  = [Js.NaN; Js.of_Z 2; Js.of_Z 1; Js.of_Z 1; Js.of_Z 1; Js.of_Z 1]
               /\ map element_invariant (tracks s) = [false; true; true; true; true; true]).
Proof.
  split.
  - eexists. split; [reflexivity|]. split; [|split; reflexivity].
    apply (reachable_event initial (CapacityInput 0 "0")); [exact reachable_initial|].
    reflexivity.
  - eexists. split; [reflexivity|]. split; [|split; reflexivity].
    apply (reachable_event initial (CapacityInput 0 "")); [exact reachable_initial|].
    reflexivity.
Qed.


Lemma current_schedule_other k ts : forall acc,
  k ∉ map Train.id ts ->
  Js.assoc k (fold_left (fun acc train => Js.assign (Train.id train) scheduled_at_zero acc)
                        ts acc)
  = Js.assoc k acc.
Proof.
  induction ts as [|t ts IH]; intros acc Hk; simpl; [reflexivity|].
  simpl in Hk. apply not_elem_of_cons in Hk as [Hne Hk].
  rewrite (IH _ Hk), assoc_assign.
  destruct (String.eqb_spec (Train.id t) k) as [Heq | _]; [|reflexivity].
  destruct Hne. symmetry. exact Heq.
Qed.

Lemma current_schedule_train k ts : forall acc,
  k ∈ map Train.id ts ->
  Js.assoc k (fold_left (fun acc train => Js.assign (Train.id train) scheduled_at_zero acc)
                        ts acc)
  = Some scheduled_at_zero.
Proof.
  induction ts as [|t ts IH]; intros acc Hk; simpl in *; [inversion Hk|].
  destruct (decide (k ∈ map Train.id ts)) as [Hin | Hout].
  - apply IH, Hin.
  - apply elem_of_cons in Hk as [-> | Hk]; [|contradiction].
    rewrite (current_schedule_other _ _ _ Hout), assoc_assign, String.eqb_refl.
    reflexivity.
Qed.

(** C1. In every configuration the page reaches, the body of the request of
    [handleOptimize] has exactly the members trains, tracks and
    current_schedule: one object per train, in order, with its id, its route
    as the array of its elements in order, its priority (0, 1 or 2) and its
    current_delay; one object per track with its id, its capacity and its kind
    (member type, one of track, junction, platform); and a schedule object
    that maps the id of every train, and nothing else, to a scheduled time
    of 0.  The current_delay and the capacity are the numbers the page holds,
    as [JSON.stringify] renders them: null when the field holds no number. *)
Theorem optimize_request_payload s :
  reachable s ->
  exists train_items track_items schedule,
    Http.body (optimize_request s)
      = Js.JObj [("trains", Js.JArr train_items);
                 ("tracks", Js.JArr track_items);
                 ("current_schedule", Js.JObj schedule)]
    /\ Forall2 train_entry (trains s) train_items
    /\ Forall2 track_entry (tracks s) track_items
    /\ (forall train, train ∈ trains s ->
           Js.assoc (Train.id train) schedule = Some scheduled_at_zero)
    /\ (forall k v, Js.assoc k schedule = Some v ->
           k ∈ map Train.id (trains s) /\ v = scheduled_at_zero).
Proof.
  intros Hs. destruct (reachable_domains s Hs) as [Hp Hk].
  eexists _, _, _. split; [reflexivity|]. split; [|split; [|split]].
  - apply Forall2_map_self. eapply Forall_impl; [exact Hp|].
    intros t Ht. unfold train_entry, train_to_json. simpl.
    repeat split.
    unfold priority_ok, priority_domain in Ht.
    repeat (apply elem_of_cons in Ht as [-> | Ht]); [..|inversion Ht];
      eexists; (split; [reflexivity|]); (split; [reflexivity|]); auto.
  - apply Forall2_map_self. eapply Forall_impl; [exact Hk|].
    intros t Ht. unfold track_entry, track_to_json. simpl.
    repeat split. exact Ht.
  - intros t Ht. apply current_schedule_train.
    apply list_elem_of_In, in_map, list_elem_of_In, Ht.
  - intros k v Hkv. unfold current_schedule in Hkv.
    destruct (decide (k ∈ map Train.id (trains s))) as [Hin | Hout].
    + rewrite (current_schedule_train _ _ _ Hin) in Hkv. split; [exact Hin|]. congruence.
    + rewrite (current_schedule_other _ _ _ Hout) in Hkv. discriminate.
Qed.

(** The request after a train was added and its delay field emptied. *)
Lemma optimize_request_payload_witness :
  let es := [AddTrainClick; CurrentDelayInput 3 ""; PrioritySelect 3 LowFreight] in
  exists s, run initial es = Some s /\ reachable s
    /\ exists train_items track_items schedule,
         Http.body (optimize_request s)
           = Js.JObj [("trains", Js.JArr train_items);
                      ("tracks", Js.JArr track_items);
                      ("current_schedule", Js.JObj schedule)]
         /\ Forall2 train_entry (trains s) train_items
         /\ Forall2 track_entry (tracks s) track_items
         /\ (forall train, train ∈ trains s ->
                Js.assoc (Train.id train) schedule = Some scheduled_at_zero)
         /\ (forall k v, Js.assoc k schedule = Some v ->
                k ∈ map Train.id (trains s) /\ v = scheduled_at_zero).
Proof.
  intros es.
  destruct (run initial es) as [s|] eqn:Hrun; [|discriminate Hrun].
  exists s.
  assert (Hs : reachable s) by exact (run_reachable es initial s reachable_initial Hrun).
  split; [reflexivity|]. split; [exact Hs|].
  exact (optimize_request_payload s Hs).
Defined.

End ScheduleOptimizerFacts.

(** ** MLPredictions: the prediction request *)

Module MLPredictionsFacts.
Import MLPredictions.

Lemma features_complete f : f ∈ features.
Proof. destruct f; unfold features; repeat constructor. Qed.

(** C2. Whatever the form holds, the body of the request of
    [handleNewPrediction] has exactly eleven members: the train id and the
    ten features of the Delay Predictor (weather, traffic density, hour of
    day, day of week, track condition, signal delay, platform availability,
    route complexity, train type, current observed delay), each with the
    value the form holds for it.  The defaults of the form lie within the
    domains the form declares (weather and traffic density in 0-1, hour in
    0-23), and every numeric default is a finite number. *)
Theorem prediction_request_payload :
  (forall p,
     let body := Http.body (prediction_request p) in
     Js.keys body = "train_id" :: map feature_key features
     /\ Js.member "train_id" body = Some (Js.JStr (train_id p))
     /\ Js.member "train_type" body = Some (Js.JStr (train_type p))
     /\ (forall f x, numeric_feature p f = Some x ->
           Js.member (feature_key f) body = Some (Js.number_to_json x)))
  /\ length features = 10
  /\ NoDup ("train_id" :: map feature_key features)
  /\ (forall f, f ∈ features)
  /\ (forall f lo hi, declared_domain f = Some (lo, hi) ->
        exists x, numeric_feature initial f = Some x
                  /\ within (Some lo) (Some hi) x = true)
  /\ (forall f x, numeric_feature initial f = Some x -> Js.is_finite x = true)
  /\ within (Some 0%Q) (Some 1%Q) (weather initial) = true
  /\ within (Some 0%Q) (Some 23%Q) (hour initial) = true.
Proof.
  split; [|split; [|split; [|split; [|split; [|split; [|split]]]]]].
  - intros p body. subst body. simpl. repeat split.
    intros f x. destruct f; simpl; intros [= <-]; reflexivity.
  - reflexivity.
  - apply (bool_decide_unpack _). vm_compute. exact I.
  - exact features_complete.
  - intros f lo hi. destruct f; simpl; intros [= <- <-]; eexists; split; reflexivity.
  - intros f x. destruct f; simpl; intros [= <-]; reflexivity.
  - reflexivity.
  - reflexivity.
Qed.

(** The default request, and the bounds of its declared features. *)
Lemma prediction_request_payload_witness :
  Js.keys (Http.body (prediction_request initial))
    = ["train_id"; "weather"; "traffic_density"; "hour"; "day_of_week";
       "track_condition"; "signal_delay"; "platform_availability";
       "route_complexity"; "train_type"; "current_delay"]
  /\ declared_domain HourOfDay = Some (0%Q, 23%Q)
  /\ exists x, numeric_feature initial HourOfDay = Some x
               /\ within (Some 0%Q) (Some 23%Q) x = true.
Proof.
  split; [exact (proj1 (proj1 prediction_request_payload initial))|].
  split; [reflexivity|].
  exact (proj1 (proj2 (proj2 (proj2 (proj2 prediction_request_payload))))
           HourOfDay 0%Q 23%Q eq_refl).
Defined.

End MLPredictionsFacts.

(** ** Dashboard: train statuses from predictions *)

Module DashboardFacts.
Import Dashboard.

Lemma Qltb_lt a b : Js.Qltb a b = true <-> (a < b)%Q.
Proof.
  unfold Js.Qltb. rewrite negb_true_iff, <- not_true_iff_false, Qle_bool_iff.
  split; [apply Qnot_le_lt | apply Qlt_not_le].
Qed.

Lemma status_of_prediction pred :
  status (to_train_status pred)
  = if Js.gtb (predictedDelay pred) (Js.Fin 10) then delayed else on_time.
Proof. reflexivity. Qed.

Lemma never_early pred : status (to_train_status pred) <> early.
Proof. rewrite status_of_prediction. destruct (Js.gtb _ _); discriminate. Qed.

Lemma fetches_never_early os : forall trainStatuses,
  Forall (fun t => status t <> early) trainStatuses ->
  Forall (fun t => status t <> early)
    (fold_left (fun trainStatuses o => fetchTrainStatuses o trainStatuses) os trainStatuses).
Proof.
  induction os as [|o os IH]; intros ts Hts; simpl; [exact Hts|].
  apply IH. destruct o as [preds| |]; simpl; [|exact Hts..].
  induction preds; simpl; constructor; [apply never_early | assumption].
Qed.

(** C10. A fetched prediction gives the status delayed when its predicted
    delay is greater than 10 and on-time otherwise (so a delay of exactly 10
    minutes is on time), and the status early is on the page after no
    sequence of fetches. *)
Theorem status_from_predicted_delay :
  (forall predictions trainStatuses,
     Forall2 (fun pred t =>
                id t = trainId pred /\ delay t = predictedDelay pred
                /\ (status t = delayed <-> Js.gtb (predictedDelay pred) (Js.Fin 10) = true)
                /\ (status t = on_time <-> Js.gtb (predictedDelay pred) (Js.Fin 10) = false)
                /\ status t <> early)
             predictions (fetchTrainStatuses (FetchedOk predictions) trainStatuses))
  /\ (forall q, Js.gtb (Js.Fin q) (Js.Fin 10) = true <-> (10 < q)%Q)
  /\ (forall os, Forall (fun t => status t <> early) (after_fetches os)).
Proof.
  split; [|split].
  - intros preds ts. unfold fetchTrainStatuses. apply Forall2_map_self, Forall_forall.
    intros pred _. split; [reflexivity|]. split; [reflexivity|].
    rewrite status_of_prediction.
    destruct (Js.gtb (predictedDelay pred) (Js.Fin 10));
      repeat split; intros; congruence.
  - intros q. apply Qltb_lt.
  - intros os. apply fetches_never_early. constructor.
Qed.

End DashboardFacts.

(** ** The percentages of Dashboard and Analytics *)

Module PercentFacts.
Import Percent.

Lemma zero_not_positive total : is_zero total -> Js.gtb total (Js.Fin 0) = false.
Proof.
  destruct total as [| |q|]; simpl; try contradiction.
  intros Hq. unfold Js.gtb, Js.ltb, Js.Qltb.
  apply negb_false_iff, Qle_bool_iff. rewrite Hq. apply Qle_refl.
Qed.

Lemma percentage_unguarded part total :
  Js.gtb total (Js.Fin 0) = false ->
  percentage part total = (Js.Fin 0, []).
Proof. unfold percentage. intros ->. reflexivity. Qed.

Lemma percentage_divisions part total :
  Forall guarded (divisions (percentage part total)).
Proof.
  unfold percentage. destruct (Js.gtb total (Js.Fin 0)) eqn:Hpos; simpl.
  - constructor; [exact Hpos | constructor].
  - constructor.
Qed.

Lemma percentage_finite part total :
  Js.is_finite part = true ->
  Js.is_finite (value (percentage part total)) = true.
Proof.
  unfold percentage. destruct (Js.gtb total (Js.Fin 0)) eqn:Hpos; [|reflexivity].
  destruct part as [| |a|]; try discriminate. intros _.
  destruct total as [| |b|]; try discriminate; simpl; [|reflexivity].
  unfold Js.Qis_zero.
  destruct (Qeq_bool b 0) eqn:Hb; [|reflexivity].
  exfalso. apply Qeq_bool_iff in Hb.
  unfold Js.gtb, Js.ltb, Js.Qltb in Hpos.
  apply negb_true_iff, not_true_iff_false in Hpos. apply Hpos.
  apply Qle_bool_iff. rewrite Hb. apply Qle_refl.
Qed.

(** C9. The on-time rate of the dashboard and the per-type share of the
    analytics page always have a value: with a zero total (no trains, no
    decisions) the value is 0 and no division takes place; every division
    that does take place has a divisor greater than 0; and with a finite
    count the value is a finite number whatever the total. *)
Theorem percentages_total :
  (forall stats, is_zero (Dashboard.totalTrains stats) ->
     on_time_rate stats = (Js.Fin 0, []))
  /\ (forall count total_decisions, is_zero total_decisions ->
        decision_type_share count total_decisions = (Js.Fin 0, []))
  /\ (forall stats, Forall guarded (divisions (on_time_rate stats)))
  /\ (forall count total_decisions,
        Forall guarded (divisions (decision_type_share count total_decisions)))
  /\ (forall stats, Js.is_finite (Dashboard.onTimeTrains stats) = true ->
        Js.is_finite (value (on_time_rate stats)) = true)
  /\ (forall count total_decisions, Js.is_finite count = true ->
        Js.is_finite (value (decision_type_share count total_decisions)) = true)
  /\ value (on_time_rate (Dashboard.update_stats [])) = Js.Fin 0.
Proof.
  unfold on_time_rate, decision_type_share.
  repeat split; intros.
  - apply percentage_unguarded, zero_not_positive. assumption.
  - apply percentage_unguarded, zero_not_positive. assumption.
  - apply percentage_divisions.
  - apply percentage_divisions.
  - apply percentage_finite. assumption.
  - apply percentage_finite. assumption.
Qed.

(** The dashboard before any train is loaded, and a type count of 3 against
    a total of 0. *)
Lemma percentages_total_witness :
  is_zero (Dashboard.totalTrains Dashboard.initial_stats)
  /\ on_time_rate Dashboard.initial_stats = (Js.Fin 0, [])
  /\ is_zero (Js.Fin 0)
  /\ decision_type_share (Js.Fin 3) (Js.Fin 0) = (Js.Fin 0, []).
Proof.
  assert (H0 : is_zero (Js.Fin 0)) by (simpl; reflexivity).
  split; [exact H0|].
  split; [exact (proj1 percentages_total Dashboard.initial_stats H0)|].
  split; [exact H0|].
  exact (proj1 (proj2 percentages_total) (Js.Fin 3) (Js.Fin 0) H0).
Defined.

End PercentFacts.

(** ** The route text, and numbers typed as text *)

Module JsMoreFacts.

Lemma append_cons (c : ascii) (s t : string) : String c s +:+ t = String c (s +:+ t).
Proof. reflexivity. Qed.

Lemma append_empty_l (s : string) : "" +:+ s = s.
Proof. reflexivity. Qed.

Lemma append_empty_r (s : string) : s +:+ "" = s.
Proof.
  induction s as [|c s IH]; [reflexivity|].
  rewrite append_cons, IH. reflexivity.
Qed.

Lemma append_assoc (a b c : string) : (a +:+ b) +:+ c = a +:+ (b +:+ c).
Proof.
  induction a as [|x a IH]; [reflexivity|].
  rewrite !append_cons, IH. reflexivity.
Qed.

(** A piece without the separator is read to its end, when what follows is
    the end of the text or a separator. *)
Lemma split_from_piece (x : string) : forall rest cur,
  JsMore.includes x ", " = false ->
  rest = "" \/ (exists r, rest = String "," r) ->
  Js.split_from ", " (x +:+ rest) 0 cur = Js.split_from ", " rest 0 (cur +:+ x).
Proof.
  induction x as [|c x IH]; intros rest cur Hx Hrest.
  - rewrite append_empty_l, append_empty_r. reflexivity.
  - cbn [JsMore.includes] in Hx. apply orb_false_iff in Hx as [Hp Hx].
    rewrite append_cons. cbn [Js.split_from].
    assert (Hno : String.prefix ", " (String c (x +:+ rest)) = false).
    { cbn [String.prefix] in Hp |- *.
      destruct (ascii_dec "," c) as [_|_]; [|reflexivity].
      destruct x as [|c2 x].
      - rewrite append_empty_l. destruct Hrest as [-> | [r ->]]; reflexivity.
      - rewrite append_cons. cbn [String.prefix] in Hp |- *.
        destruct (ascii_dec " " c2); [destruct x; discriminate Hp | reflexivity]. }
    rewrite Hno. rewrite (IH rest _ Hx Hrest).
    rewrite append_assoc. reflexivity.
Qed.

Lemma split_from_separator (more cur : string) :
  Js.split_from ", " (", " +:+ more) 0 cur = cur :: Js.split_from ", " more 0 "".
Proof. destruct more; reflexivity. Qed.

Lemma split_join_from (route : list string) : forall x,
  Forall (fun y => JsMore.includes y ", " = false) (x :: route) ->
  Js.split_from ", " (JsMore.join (x :: route) ", ") 0 "" = x :: route.
Proof.
  induction route as [|y route IH]; intros x Hall.
  - cbn [JsMore.join]. rewrite <- (append_empty_r x) at 1.
    rewrite split_from_piece; [reflexivity | | left; reflexivity].
    inversion Hall; assumption.
  - change (JsMore.join (x :: y :: route) ", ")
      with (x +:+ ", " +:+ JsMore.join (y :: route) ", ").
    inversion Hall as [|? ? Hx Hrest]; subst.
    rewrite split_from_piece; [| exact Hx | right; eexists; reflexivity].
    rewrite split_from_separator, append_empty_l, (IH y Hrest). reflexivity.
Qed.

(** Any text splits into at least one piece. *)
Lemma split_from_not_nil (sep s : string) : forall skip cur,
  Js.split_from sep s skip cur <> [].
Proof.
  induction s as [|c s IH]; intros skip cur; cbn [Js.split_from]; [done|].
  destruct skip; [|apply IH].
  destruct (String.prefix sep (String c s)); [done | apply IH].
Qed.

(** The digits of a decimal numeral are read back as its value. *)
Lemma parse_digits_uint (d : Decimal.uint) : forall n,
  Js.parse_digits 10 (NilEmpty.string_of_uint d) (Some (Z.of_nat n))
  = Some (Z.of_nat (Nat.of_uint_acc d n)).
Proof.
  induction d; intros n; cbn [NilEmpty.string_of_uint Js.parse_digits Nat.of_uint_acc];
    [reflexivity|..];
    (change (Js.digit_value 10 _) with (Some 0%Z)
     || change (Js.digit_value 10 _) with (Some 1%Z)
     || change (Js.digit_value 10 _) with (Some 2%Z)
     || change (Js.digit_value 10 _) with (Some 3%Z)
     || change (Js.digit_value 10 _) with (Some 4%Z)
     || change (Js.digit_value 10 _) with (Some 5%Z)
     || change (Js.digit_value 10 _) with (Some 6%Z)
     || change (Js.digit_value 10 _) with (Some 7%Z)
     || change (Js.digit_value 10 _) with (Some 8%Z)
     || change (Js.digit_value 10 _) with (Some 9%Z));
    rewrite <- IHd; f_equal; f_equal; unfold default; cbn [from_option id];
    rewrite Nat.tail_mul_spec; lia.
Qed.


Lemma parseInt_numeral (d : Decimal.uint) :
  d <> Decimal.Nil ->
  Js.parseInt (NilEmpty.string_of_uint d) = Js.of_nat (Nat.of_uint d).
Proof.
  intros Hd. unfold Js.of_nat, Nat.of_uint.
  destruct d as [|d|d|d|d|d|d|d|d|d|d]; [done|..]; clear Hd;
    destruct d as [|d|d|d|d|d|d|d|d|d|d];
    try reflexivity;
    unfold Js.parseInt;
    cbn [NilEmpty.string_of_uint Js.trim_start];
    repeat match goal with
           | |- context [Js.is_white_space ?c] =>
               change (Js.is_white_space c) with false
           end;
    cbv beta iota;
    cbn [Js.parse_digits];
    repeat match goal with
           | |- context [Js.digit_value 10 ?c] =>
               let v := eval vm_compute in (Js.digit_value 10 c) in
               change (Js.digit_value 10 c) with v
           end;
    cbv beta iota;
    match goal with
    | |- context [Js.parse_digits 10 ?s (Some ?z)] =>
        let m := eval vm_compute in (Z.to_nat z) in
        change (Js.parse_digits 10 s (Some z))
          with (Js.parse_digits 10 s (Some (Z.of_nat m)))
    end;
    rewrite parse_digits_uint; rewrite Z.mul_1_l; reflexivity.
Qed.

Lemma to_uint_not_nil (n : nat) : Nat.to_uint n <> Decimal.Nil.
Proof.
  rewrite <- (DecimalNat.Unsigned.of_to n) at 1. rewrite DecimalNat.Unsigned.to_of.
  apply DecimalFacts.unorm_nonnil.
Qed.

Lemma nat_to_string_inj (n m : nat) :
  Js.nat_to_string n = Js.nat_to_string m -> n = m.
Proof.
  unfold Js.nat_to_string. intros Heq. apply DecimalNat.Unsigned.to_uint_inj.
  assert (H1 := NilEmpty.usu (Nat.to_uint n)). rewrite Heq, NilEmpty.usu in H1.
  congruence.
Qed.

(** Splitting the joined text of a route gives the route back, when the
    route is not empty and no element contains the separator. *)
Lemma split_join_round_trip (route : list string) :
  route <> [] ->
  Forall (fun element => JsMore.includes element ", " = false) route ->
  Js.split (JsMore.join route ", ") ", " = route.
Proof.
  destruct route as [|x route]; [done|]. intros _ Hall.
  apply split_join_from, Hall.
Qed.

(** [parseInt] reads the decimal rendering of a natural number back as that
    number. *)
Lemma parseInt_reads_decimal (n : nat) :
  Js.parseInt (Js.nat_to_string n) = Js.of_nat n.
Proof.
  unfold Js.nat_to_string. rewrite parseInt_numeral by apply to_uint_not_nil.
  rewrite DecimalNat.Unsigned.of_to. reflexivity.
Qed.

End JsMoreFacts.

(** ** ScheduleOptimizer: rows, ids and the optimize button *)

Module OptimizerPageFacts.
Import ScheduleOptimizer.

Lemma map_insert_same {A B} (f : A -> B) (l : list A) (i : nat) (x y : A) :
  l !! i = Some x -> f y = f x -> map f (<[i:=y]> l) = map f l.
Proof.
  intros Hi Hf. change (f <$> <[i:=y]> l = f <$> l).
  rewrite list_fmap_insert, Hf. apply list_insert_id.
  rewrite list_lookup_fmap, Hi. reflexivity.
Qed.

Lemma expected_train_ids_S n :
  3 <= n ->
  OptimizerPage.expected_train_ids (S n)
  = OptimizerPage.expected_train_ids n ++ ["TRAIN-" +:+ Js.nat_to_string (n + 1)].
Proof.
  intros Hn. unfold OptimizerPage.expected_train_ids.
  replace (S n - 3) with (S (n - 3)) by lia.
  rewrite seq_S, map_app. cbn [map].
  replace (3 + (n - 3)) with n by lia.
  rewrite <- app_assoc. reflexivity.
Qed.

Lemma expected_track_ids_S n :
  OptimizerPage.expected_track_ids (S n) = OptimizerPage.expected_track_ids n ++ [Js.fromCharCode (65 + n)].
Proof. unfold OptimizerPage.expected_track_ids. rewrite seq_S, map_app. reflexivity. Qed.

Lemma initial_rows_kept : OptimizerPage.rows_kept initial.
Proof.
  repeat split; simpl; try lia.
  repeat (constructor; [discriminate|]). constructor.
Qed.

Lemma handle_keeps_rows s e s' :
  handle s e = Some s' -> OptimizerPage.rows_kept s -> OptimizerPage.rows_kept s'.
Proof.
  intros He (Hids & Hlen & Hks & Hroutes).
  destruct e as [| |i v|i v|i o|i v|i o]; simpl in He;
    unfold updateTrain, updateTrack in He.
  - injection He as <-. unfold OptimizerPage.rows_kept, addTrain.
    cbn [trains tracks]. rewrite map_app, length_app, Hids. cbn [length map Train.id].
    assert (E : OptimizerPage.expected_train_ids (length (trains s) + 1)
                = OptimizerPage.expected_train_ids (length (trains s))
                  ++ ["TRAIN-" +:+ Js.nat_to_string (length (trains s) + 1)]).
    { rewrite (Nat.add_1_r (length (trains s))) at 1.
      apply expected_train_ids_S, Hlen. }
    rewrite E.
    repeat split; [lia | exact Hks |].
    apply Forall_app. split; [exact Hroutes|]. constructor; [discriminate | constructor].
  - injection He as <-. unfold OptimizerPage.rows_kept, addTrack.
    cbn [trains tracks]. rewrite map_app, length_app, Hks. cbn [length map Track.id].
    rewrite (Nat.add_1_r (length (tracks s))), expected_track_ids_S.
    repeat split; [exact Hids | exact Hlen | exact Hroutes].
  - destruct (trains s !! i) as [t|] eqn:Hi; [|discriminate]. injection He as <-.
    unfold OptimizerPage.rows_kept. simpl. rewrite length_insert.
    rewrite (map_insert_same _ _ _ t) by (exact Hi || reflexivity).
    repeat split; [exact Hids | exact Hlen | exact Hks |].
    apply Forall_insert; [exact Hroutes|]. simpl.
    apply JsMoreFacts.split_from_not_nil.
  - destruct (trains s !! i) as [t|] eqn:Hi; [|discriminate]. injection He as <-.
    unfold OptimizerPage.rows_kept. simpl. rewrite length_insert.
    rewrite (map_insert_same _ _ _ t) by (exact Hi || reflexivity).
    repeat split; [exact Hids | exact Hlen | exact Hks |].
    apply Forall_insert; [exact Hroutes|]. simpl.
    exact (proj1 (Forall_lookup _ _) Hroutes i t Hi).
  - destruct (trains s !! i) as [t|] eqn:Hi; [|discriminate]. injection He as <-.
    unfold OptimizerPage.rows_kept. simpl. rewrite length_insert.
    rewrite (map_insert_same _ _ _ t) by (exact Hi || reflexivity).
    repeat split; [exact Hids | exact Hlen | exact Hks |].
    apply Forall_insert; [exact Hroutes|]. simpl.
    exact (proj1 (Forall_lookup _ _) Hroutes i t Hi).
  - destruct (tracks s !! i) as [t|] eqn:Hi; [|discriminate]. injection He as <-.
    unfold OptimizerPage.rows_kept. simpl. rewrite length_insert.
    rewrite (map_insert_same _ _ _ t) by (exact Hi || reflexivity).
    repeat split; assumption.
  - destruct (tracks s !! i) as [t|] eqn:Hi; [|discriminate]. injection He as <-.
    unfold OptimizerPage.rows_kept. simpl. rewrite length_insert.
    rewrite (map_insert_same _ _ _ t) by (exact Hi || reflexivity).
    repeat split; assumption.
Qed.

Lemma reachable_rows_kept s : reachable s -> OptimizerPage.rows_kept s.
Proof.
  induction 1 as [|s e s' _ IH He]; [exact initial_rows_kept|].
  exact (handle_keeps_rows s e s' He IH).
Qed.

Lemma train_name_inj (i j : nat) :
  "TRAIN-" +:+ Js.nat_to_string (i + 1) = "TRAIN-" +:+ Js.nat_to_string (j + 1) ->
  i = j.
Proof.
  intros Heq. apply String.app_inj in Heq.
  apply JsMoreFacts.nat_to_string_inj in Heq. lia.
Qed.

Lemma expected_train_ids_NoDup n : NoDup (OptimizerPage.expected_train_ids n).
Proof.
  unfold OptimizerPage.expected_train_ids. apply NoDup_app. split; [|split].
  - apply (bool_decide_unpack _). vm_compute. exact I.
  - intros x Hx Hin.
    change (map ?f ?l) with (f <$> l) in Hin.
    apply list_elem_of_fmap in Hin as (i & -> & _).
    repeat (apply elem_of_cons in Hx as [Hx | Hx]; [discriminate Hx|]).
    inversion Hx.
  - change (map ?f ?l) with (f <$> l).
    apply NoDup_fmap_2; [|apply NoDup_seq].
    intros i j. apply train_name_inj.
Qed.


Lemma assign_fresh {V} (k : string) (v : V) (l : list (string * V)) :
  k ∉ map fst l -> Js.assign k v l = l ++ [(k, v)].
Proof.
  induction l as [|[k' v'] l IH]; intros Hk; simpl; [reflexivity|].
  simpl in Hk. apply not_elem_of_cons in Hk as [Hne Hk].
  destruct (String.eqb_spec k' k) as [-> | _]; [contradiction|].
  rewrite (IH Hk). reflexivity.
Qed.

Lemma current_schedule_fresh (ts : list Train.t) : forall acc,
  NoDup (map fst acc ++ map Train.id ts) ->
  fold_left (fun acc train => Js.assign (Train.id train) scheduled_at_zero acc) ts acc
  = acc ++ map (fun train => (Train.id train, scheduled_at_zero)) ts.
Proof.
  induction ts as [|t ts IH]; intros acc Hnd; simpl.
  - rewrite app_nil_r. reflexivity.
  - simpl in Hnd.
    assert (Hfresh : Train.id t ∉ map fst acc).
    { apply NoDup_app in Hnd as (_ & Hd & _). intros Hin. apply (Hd _ Hin). left. }
    rewrite (assign_fresh _ _ _ Hfresh), IH.
    + rewrite <- app_assoc. reflexivity.
    + rewrite map_app. simpl. rewrite <- app_assoc. exact Hnd.
Qed.

Lemma run_config_reachable es : forall s s',
  reachable s -> run s es = Some s' -> reachable s'.
Proof. exact (ScheduleOptimizerFacts.run_reachable es). Qed.

(** X1. The page never renames or removes a train: in every configuration
    it reaches, the first three trains are EXP-101, LOC-78 and FRT-203, the
    n-th train after them has the id TRAIN-n, and no two trains have the same
    id. *)
Theorem train_ids_are_distinct s :
  reachable s ->
  map Train.id (trains s) = OptimizerPage.expected_train_ids (length (trains s))
  /\ 3 <= length (trains s)
  /\ NoDup (map Train.id (trains s)).
Proof.
  intros Hs. destruct (reachable_rows_kept s Hs) as (Hids & Hlen & _).
  split; [exact Hids|]. split; [exact Hlen|].
  rewrite Hids. apply expected_train_ids_NoDup.
Qed.

Lemma train_ids_are_distinct_witness :
  let es := [AddTrainClick; PrioritySelect 0 LowFreight; AddTrainClick; RouteInput 4 "B"] in
  exists s, run initial es = Some s /\ reachable s
    /\ map Train.id (trains s) = ["EXP-101"; "LOC-78"; "FRT-203"; "TRAIN-4"; "TRAIN-5"]
    /\ NoDup (map Train.id (trains s)).
Proof.
  intros es.
  destruct (run initial es) as [s|] eqn:Hrun; [|discriminate Hrun].
  exists s.
  assert (Hs : reachable s) by exact (run_config_reachable es initial s reachable_initial Hrun).
  split; [reflexivity|]. split; [exact Hs|].
  split; [vm_compute in Hrun; injection Hrun as <-; reflexivity|].
  exact (proj2 (proj2 (train_ids_are_distinct s Hs))).
Defined.

(** X2. The tracks keep the letters the page gave them: in every reached
    configuration the track in row i has the id of character code 65 + i
    (A, B, C, ...), and with at most 63 tracks no two have the same id. *)
Theorem track_ids_are_letters s :
  reachable s ->
  length (tracks s) <= 63 ->
  map Track.id (tracks s) = OptimizerPage.expected_track_ids (length (tracks s))
  /\ NoDup (map Track.id (tracks s)).
Proof.
  intros Hs Hlen. destruct (reachable_rows_kept s Hs) as (_ & _ & Hks & _).
  split; [exact Hks|]. rewrite Hks. unfold OptimizerPage.expected_track_ids.
  change (map ?f ?l) with (f <$> l).
  apply NoDup_fmap_2_strong; [|apply NoDup_seq].
  intros x y Hx Hy Heq.
  apply list_elem_of_In, in_seq in Hx. apply list_elem_of_In, in_seq in Hy.
  unfold Js.fromCharCode in Heq. injection Heq as Heq.
  apply (f_equal nat_of_ascii) in Heq.
  rewrite !nat_ascii_embedding in Heq by lia. lia.
Qed.

Lemma track_ids_are_letters_witness :
  let es := [AddTrackClick; CapacityInput 6 "3"; TypeSelect 6 OptionPlatform] in
  exists s, run initial es = Some s /\ reachable s /\ length (tracks s) <= 63
    /\ map Track.id (tracks s) = ["A"; "B"; "C"; "D"; "E"; "F"; "G"]
    /\ NoDup (map Track.id (tracks s)).
Proof.
  intros es.
  destruct (run initial es) as [s|] eqn:Hrun; [|discriminate Hrun].
  exists s.
  assert (Hs : reachable s) by exact (run_config_reachable es initial s reachable_initial Hrun).
  assert (Hlen : length (tracks s) <= 63).
  { vm_compute in Hrun. injection Hrun as <-. simpl. lia. }
  split; [reflexivity|]. split; [exact Hs|]. split; [exact Hlen|].
  split; [vm_compute in Hrun; injection Hrun as <-; reflexivity|].
  exact (proj2 (track_ids_are_letters s Hs Hlen)).
Defined.

(** X3. In every reached configuration the schedule object of the optimize
    request has one member per train, in the order of the trains, each a
    scheduled time of 0: no member is overwritten by a later train. *)
Theorem current_schedule_one_member_per_train s :
  reachable s ->
  current_schedule (trains s)
  = map (fun train => (Train.id train, scheduled_at_zero)) (trains s).
Proof.
  intros Hs. unfold current_schedule.
  rewrite current_schedule_fresh; [reflexivity|].
  destruct (reachable_rows_kept s Hs) as (Hids & _).
  simpl. rewrite Hids. apply expected_train_ids_NoDup.
Qed.

Lemma current_schedule_one_member_per_train_witness :
  let es := [AddTrainClick; CurrentDelayInput 3 "4"] in
  exists s, run initial es = Some s /\ reachable s
    /\ map fst (current_schedule (trains s)) = ["EXP-101"; "LOC-78"; "FRT-203"; "TRAIN-4"].
Proof.
  intros es.
  destruct (run initial es) as [s|] eqn:Hrun; [|discriminate Hrun].
  exists s.
  assert (Hs : reachable s) by exact (run_config_reachable es initial s reachable_initial Hrun).
  split; [reflexivity|]. split; [exact Hs|].
  rewrite (current_schedule_one_member_per_train s Hs).
  vm_compute in Hrun. injection Hrun as <-. reflexivity.
Defined.


Lemma set_route_same (t : Train.t) : set_train_field (train_route (Train.route t)) t = t.
Proof. destruct t; reflexivity. Qed.

(** X4. No train of a reached configuration has the empty list as its
    route: a text typed into the route input always splits into at least one
    element, and the emptied input gives the route of one empty element. *)
Theorem routes_never_empty s :
  reachable s ->
  Forall (fun train => Train.route train <> []) (trains s)
  /\ forall index train,
       trains s !! index = Some train ->
       exists s', handle s (RouteInput index "") = Some s'
                  /\ Train.route <$> (trains s' !! index) = Some [""].
Proof.
  intros Hs. destruct (reachable_rows_kept s Hs) as (_ & _ & _ & Hroutes).
  split; [exact Hroutes|].
  intros i t Hi. simpl. unfold updateTrain. rewrite Hi.
  eexists. split; [reflexivity|]. simpl.
  rewrite list_lookup_insert_eq; [reflexivity|].
  apply lookup_lt_Some in Hi. exact Hi.
Qed.

Lemma routes_never_empty_witness :
  let es := [RouteInput 1 ""; AddTrainClick] in
  exists s, run initial es = Some s /\ reachable s
    /\ map Train.route (trains s)
       = [["A"; "B"; "C"]; [""]; ["B"; "C"; "F"]; ["A"; "B"]]
    /\ Forall (fun train => Train.route train <> []) (trains s).
Proof.
  intros es.
  destruct (run initial es) as [s|] eqn:Hrun; [|discriminate Hrun].
  exists s.
  assert (Hs : reachable s) by exact (run_config_reachable es initial s reachable_initial Hrun).
  split; [reflexivity|]. split; [exact Hs|].
  split; [vm_compute in Hrun; injection Hrun as <-; reflexivity|].
  exact (proj1 (routes_never_empty s Hs)).
Defined.

(** X5. The route input round trip: when no element of a train's route
    contains the separator (a comma and a space), the text the input shows
    for the train reads back as the same route, so an input event that
    carries the text shown leaves the configuration as it is. *)
Theorem route_input_round_trip s index train :
  reachable s ->
  trains s !! index = Some train ->
  Forall (fun element => JsMore.includes element ", " = false) (Train.route train) ->
  Js.split (OptimizerPage.route_text train) ", " = Train.route train
  /\ handle s (RouteInput index (OptimizerPage.route_text train)) = Some s.
Proof.
  intros Hs Hi Hclean. destruct (reachable_rows_kept s Hs) as (_ & _ & _ & Hroutes).
  assert (Hne : Train.route train <> [])
    by exact (proj1 (Forall_lookup _ _) Hroutes index train Hi).
  assert (Hrt : Js.split (OptimizerPage.route_text train) ", " = Train.route train)
    by exact (JsMoreFacts.split_join_round_trip _ Hne Hclean).
  split; [exact Hrt|].
  cbn [handle]. rewrite Hrt. unfold updateTrain. rewrite Hi, set_route_same.
  rewrite (list_insert_id _ _ _ Hi). destruct s; reflexivity.
Qed.

Lemma route_input_round_trip_witness :
  let train := {| Train.id := "EXP-101"; Train.route := ["A"; "B"; "C"];
                  Train.priority := Js.Fin 2; Train.current_delay := Js.Fin 5 |} in
  reachable initial /\ trains initial !! 0 = Some train
  /\ Forall (fun element => JsMore.includes element ", " = false) (Train.route train)
  /\ OptimizerPage.route_text train = "A, B, C"
  /\ handle initial (RouteInput 0 "A, B, C") = Some initial.
Proof.
  intros train.
  assert (H2 : trains initial !! 0 = Some train) by reflexivity.
  assert (H3 : Forall (fun element => JsMore.includes element ", " = false)
                 (Train.route train)).
  { repeat (constructor; [reflexivity|]). constructor. }
  split; [exact reachable_initial|]. split; [exact H2|]. split; [exact H3|].
  split; [reflexivity|].
  exact (proj2 (route_input_round_trip initial 0 train reachable_initial H2 H3)).
Defined.

Lemma positive_integer_of_nat (n : nat) :
  positive_integer (Js.of_nat n) = true <-> 1 <= n.
Proof.
  unfold positive_integer, Js.of_nat, Js.of_Z.
  rewrite Qfloor_Z, Qeq_bool_refl. simpl andb.
  rewrite Qle_bool_iff. change 1%Q with (inject_Z 1). rewrite <- Zle_Qle. lia.
Qed.

(** X6. The capacity input stores a natural number typed into it as it is
    (for numbers up to 2^53, which binary64 holds exactly), whatever the
    minimum the input declares: the edited track then satisfies the
    NetworkElement invariant exactly when the number is at least 1 (and the
    track's kind is one of the three kinds). *)
Theorem capacity_input_stores_number s index track (n : nat) :
  tracks s !! index = Some track ->
  (Z.of_nat n <= JsMore.exact_integer_bound)%Z ->
  handle s (CapacityInput index (Js.nat_to_string n))
  = Some {| trains := trains s;
            tracks := <[index := OptimizerPage.with_capacity (Js.of_nat n) track]>
                        (tracks s) |}
  /\ Track.capacity (OptimizerPage.with_capacity (Js.of_nat n) track) = Js.of_nat n
  /\ (element_invariant (OptimizerPage.with_capacity (Js.of_nat n) track) = true
      <-> 1 <= n /\ Track.type track ∈ element_kinds).
Proof.
  intros Hi _. split; [|split].
  - cbn [handle]. rewrite JsMoreFacts.parseInt_reads_decimal.
    unfold updateTrack. rewrite Hi. reflexivity.
  - reflexivity.
  - unfold element_invariant, OptimizerPage.with_capacity. cbn [set_track_field Track.capacity Track.type].
    rewrite andb_true_iff, positive_integer_of_nat, bool_decide_eq_true. reflexivity.
Qed.

Lemma capacity_input_stores_number_witness :
  let track := {| Track.id := "B"; Track.capacity := Js.Fin 2; Track.type := "track" |} in
  tracks initial !! 1 = Some track
  /\ (Z.of_nat 0 <= JsMore.exact_integer_bound)%Z
  /\ option_map (fun s => map Track.capacity (tracks s))
                (handle initial (CapacityInput 1 "0"))
     = Some [Js.of_nat 1; Js.of_nat 0; Js.of_nat 1; Js.of_nat 1; Js.of_nat 1; Js.of_nat 1]
  /\ ~ (1 <= 0 /\ Track.type track ∈ element_kinds)
  /\ element_invariant (OptimizerPage.with_capacity (Js.of_nat 0) track) <> true.
Proof.
  intros track.
  assert (H1 : tracks initial !! 1 = Some track) by reflexivity.
  assert (H2 : (Z.of_nat 0 <= JsMore.exact_integer_bound)%Z) by (vm_compute; discriminate).
  destruct (capacity_input_stores_number initial 1 track 0 H1 H2) as (Hh & _ & Hiff).
  split; [exact H1|]. split; [exact H2|]. split; [|split].
  - change (Js.nat_to_string 0) with "0" in Hh. rewrite Hh. reflexivity.
  - intros [Hle _]. inversion Hle.
  - intros Hinv. apply Hiff in Hinv as [Hle _]. inversion Hle.
Defined.

Lemma exec_keeps_one_request p ev p' :
  OptimizerPage.exec p ev = Some p' ->
  OptimizerPage.one_request p /\ reachable (OptimizerPage.config p)
  /\ Forall (fun request => exists s0, reachable s0 /\ request = optimize_request s0)
            (OptimizerPage.under_way p) ->
  OptimizerPage.one_request p' /\ reachable (OptimizerPage.config p')
  /\ Forall (fun request => exists s0, reachable s0 /\ request = optimize_request s0)
            (OptimizerPage.under_way p').
Proof.
  intros Hex (Hone & Hreach & Hreq).
  destruct ev as [e| |o]; simpl in Hex.
  - destruct (handle (OptimizerPage.config p) e) as [s1|] eqn:He; [|discriminate].
    injection Hex as <-. split; [exact Hone|]. split; [|exact Hreq].
    exact (reachable_event _ e s1 Hreach He).
  - destruct (OptimizerPage.loading p) eqn:Hl; [discriminate|].
    injection Hex as <-. unfold OptimizerPage.one_request. simpl.
    destruct Hone as [[Hu _] | (r & _ & Hl')]; [|congruence].
    rewrite Hu. simpl. split; [right; eexists; split; reflexivity|].
    split; [exact Hreach|]. constructor; [|constructor].
    exists (OptimizerPage.config p). split; [exact Hreach | reflexivity].
  - destruct (OptimizerPage.under_way p) as [|r rest] eqn:Hu; [discriminate|].
    injection Hex as <-. unfold OptimizerPage.one_request. simpl.
    destruct Hone as [[Hu' _] | (r' & Hu' & _)]; rewrite Hu in Hu';
      [discriminate Hu'|].
    injection Hu' as -> ->.
    split; [left; split; reflexivity|]. split; [exact Hreach | constructor].
Qed.

(** X7. The Optimize button is disabled while a request is under way, so
    at every moment of every run of the page either no optimize request is
    under way and [loading] is false, or exactly one is and [loading] is
    true; a request under way is the request of a configuration the page had
    reached, and the configuration can be edited meanwhile. *)
Theorem one_optimize_request_at_a_time evs : forall p,
  OptimizerPage.run OptimizerPage.initial evs = Some p ->
  OptimizerPage.one_request p
  /\ reachable (OptimizerPage.config p)
  /\ Forall (fun request => exists s0, reachable s0 /\ request = optimize_request s0)
            (OptimizerPage.under_way p).
Proof.
  assert (Hgen : forall evs p0 p,
             OptimizerPage.run p0 evs = Some p ->
             OptimizerPage.one_request p0 /\ reachable (OptimizerPage.config p0)
             /\ Forall (fun request => exists s0, reachable s0 /\ request = optimize_request s0)
                       (OptimizerPage.under_way p0) ->
             OptimizerPage.one_request p /\ reachable (OptimizerPage.config p)
             /\ Forall (fun request => exists s0, reachable s0 /\ request = optimize_request s0)
                       (OptimizerPage.under_way p)).
  { clear evs. induction evs as [|ev evs IH]; intros p0 p Hrun Hinv; simpl in Hrun.
    - injection Hrun as <-. exact Hinv.
    - destruct (OptimizerPage.exec p0 ev) as [p1|] eqn:Hex; [|discriminate].
      exact (IH p1 p Hrun (exec_keeps_one_request p0 ev p1 Hex Hinv)). }
  intros p Hrun. apply (Hgen evs OptimizerPage.initial p Hrun).
  split; [left; split; reflexivity|]. split; [exact reachable_initial | constructor].
Qed.

Lemma one_optimize_request_at_a_time_witness :
  let evs := [OptimizerPage.OptimizeClick;
              OptimizerPage.Edit AddTrainClick;
              OptimizerPage.OptimizeSettle Http.Rejected;
              OptimizerPage.OptimizeClick] in
  exists p, OptimizerPage.run OptimizerPage.initial evs = Some p
    /\ OptimizerPage.loading p = true
    /\ length (OptimizerPage.under_way p) = 1
    /\ OptimizerPage.run OptimizerPage.initial (evs ++ [OptimizerPage.OptimizeClick]) = None
    /\ OptimizerPage.one_request p.
Proof.
  intros evs.
  destruct (OptimizerPage.run OptimizerPage.initial evs) as [p|] eqn:Hrun;
    [|discriminate Hrun].
  exists p. split; [reflexivity|].
  pose proof (proj1 (one_optimize_request_at_a_time evs p Hrun)) as Hone.
  vm_compute in Hrun. injection Hrun as <-.
  split; [reflexivity|]. split; [reflexivity|]. split; [reflexivity|]. exact Hone.
Defined.


(** X22. The two cards of the page are independent: an event of the Trains
    card and an event of the Tracks card give the same configuration in
    either order, the first changing only the trains and the second only the
    tracks. *)
Theorem train_and_track_events_commute s e1 e2 :
  OptimizerPage.on_trains e1 = true ->
  OptimizerPage.on_trains e2 = false ->
  run s [e1; e2] = run s [e2; e1]
  /\ (forall s1, handle s e1 = Some s1 -> tracks s1 = tracks s)
  /\ (forall s2, handle s e2 = Some s2 -> trains s2 = trains s).
Proof.
  intros H1 H2.
  destruct e1 as [| |i v|i v|i o|i v|i o]; try discriminate H1; clear H1;
    destruct e2 as [| |j w|j w|j o'|j w|j o']; try discriminate H2; clear H2;
    cbn [run handle]; unfold updateTrain, updateTrack, addTrain, addTrack;
    cbn [trains tracks];
    try (destruct (trains s !! i) as [t|] eqn:Hi);
    try (destruct (tracks s !! j) as [k|] eqn:Hj);
    cbn [trains tracks]; rewrite ?Hi, ?Hj;
    (split; [reflexivity|]); split; intros ? E; try discriminate E;
    injection E as <-; reflexivity.
Qed.

Lemma train_and_track_events_commute_witness :
  OptimizerPage.on_trains (PrioritySelect 2 HighExpress) = true
  /\ OptimizerPage.on_trains AddTrackClick = false
  /\ run initial [PrioritySelect 2 HighExpress; AddTrackClick]
     = run initial [AddTrackClick; PrioritySelect 2 HighExpress].
Proof.
  split; [reflexivity|]. split; [reflexivity|].
  exact (proj1 (train_and_track_events_commute initial (PrioritySelect 2 HighExpress)
                  AddTrackClick eq_refl eq_refl)).
Defined.

End OptimizerPageFacts.

(** ** AIDecisions: counters and the composition of resolutions *)

Module AIDecisionsViewFacts.
Import AIDecisions AIDecisionsView.

Lemma mark_resolved_ids k a ds : map id (mark_resolved k a ds) = map id ds.
Proof.
  unfold mark_resolved. rewrite map_map. apply map_ext.
  intros d. destruct (String.eqb (id d) k); reflexivity.
Qed.

Lemma mark_resolved_absent k a ds : k ∉ map id ds -> mark_resolved k a ds = ds.
Proof.
  induction ds as [|d ds IH]; intros Hk; simpl; [reflexivity|].
  simpl in Hk. apply not_elem_of_cons in Hk as [Hne Hk].
  destruct (String.eqb_spec (id d) k) as [Heq | _]; [congruence|].
  rewrite (IH Hk). reflexivity.
Qed.

Lemma count_cons s d ds :
  count_status s (d :: ds) = (if has_status s d then 1 else 0) + count_status s ds.
Proof. unfold count_status. simpl. destruct (has_status s d); reflexivity. Qed.

Lemma mark_resolved_pending_le k a ds :
  count_status pending (mark_resolved k a ds) <= count_status pending ds.
Proof.
  induction ds as [|d ds IH]; [reflexivity|].
  cbn [mark_resolved map]. fold (mark_resolved k a ds). rewrite !count_cons.
  destruct (String.eqb (id d) k).
  - unfold has_status at 1. simpl status.
    rewrite bool_decide_eq_false_2 by apply AIDecisionsFacts.resolved_status_not_pending.
    destruct (has_status pending d); lia.
  - destruct (has_status pending d); lia.
Qed.

Lemma offered_controls_count ds :
  length (offered_controls ds) = 2 * count_status pending ds.
Proof.
  induction ds as [|d ds IH]; [reflexivity|].
  unfold offered_controls in *. cbn [flat_map]. rewrite length_app, IH, count_cons.
  unfold controls, has_status. destruct (status d); simpl; lia.
Qed.

Lemma exec_decisions c e c' :
  exec c e = Some c' ->
  decisions c' = apply_grants (granted [e]) (decisions c).
Proof.
  destruct e as [k a | k a o]; simpl.
  - case_bool_decide; [|discriminate]. intros [= <-]. reflexivity.
  - case_bool_decide; [|discriminate]. intros [= <-]. simpl.
    destruct o as [r|]; simpl; [|reflexivity].
    destruct (Http.ok r); reflexivity.
Qed.

(** X8. Whatever the responses and their order, the state of the decisions
    after a run of the page is the state before with the granted resolutions
    applied in the order they were granted: clicks, refused and failed
    requests leave no trace in it. *)
Theorem decisions_after_run es : forall c c',
  run c es = Some c' ->
  decisions c' = apply_grants (granted es) (decisions c).
Proof.
  induction es as [|e es IH]; intros c c' Hrun; simpl in Hrun.
  - injection Hrun as <-. reflexivity.
  - destruct (exec c e) as [c1|] eqn:He; [|discriminate].
    rewrite (IH c1 c' Hrun), (exec_decisions c e c1 He).
    change (e :: es) with ([e] ++ es).
    rewrite AIDecisionsFacts.granted_app. unfold apply_grants.
    rewrite fold_left_app. reflexivity.
Qed.

Lemma decisions_after_run_witness :
  let loaded := [sample_decision "d1" pending; sample_decision "d2" pending] in
  let es := [Click "d2" reject; Click "d1" accept; Settle "d1" accept refused;
             Settle "d2" reject granted_ok] in
  exists c', run (start loaded) es = Some c'
    /\ granted es = [("d2", reject)]
    /\ decisions c' = [sample_decision "d1" pending; sample_decision "d2" rejected].
Proof.
  intros loaded es.
  destruct (run (start loaded) es) as [c'|] eqn:Hrun; [|discriminate Hrun].
  exists c'. split; [reflexivity|]. split; [reflexivity|].
  rewrite (decisions_after_run es (start loaded) c' Hrun). reflexivity.
Defined.

Lemma exec_pending c e c' :
  exec c e = Some c' ->
  map id (decisions c') = map id (decisions c)
  /\ count_status pending (decisions c') <= count_status pending (decisions c).
Proof.
  destruct e as [k a | k a o]; simpl.
  - case_bool_decide; [|discriminate]. intros [= <-]. split; reflexivity.
  - case_bool_decide; [|discriminate]. intros [= <-]. simpl.
    destruct o as [r|]; simpl; [|split; reflexivity].
    destruct (Http.ok r); [|split; reflexivity].
    split; [apply mark_resolved_ids | apply mark_resolved_pending_le].
Qed.

(** X9. Along every run of the page the decisions keep their ids and their
    order, the number of pending decisions never grows, and the number of
    buttons on the page is twice the number of pending decisions. *)
Theorem pending_never_grows es : forall c c',
  run c es = Some c' ->
  map id (decisions c') = map id (decisions c)
  /\ count_status pending (decisions c') <= count_status pending (decisions c)
  /\ length (offered_controls (decisions c')) = 2 * count_status pending (decisions c').
Proof.
  induction es as [|e es IH]; intros c c' Hrun; simpl in Hrun.
  - injection Hrun as <-. repeat split; [lia | apply offered_controls_count].
  - destruct (exec c e) as [c1|] eqn:He; [|discriminate].
    destruct (IH c1 c' Hrun) as (Hids & Hle & Hbuttons).
    destruct (exec_pending c e c1 He) as (Hids1 & Hle1).
    split; [congruence|]. split; [lia | exact Hbuttons].
Qed.

Lemma pending_never_grows_witness :
  let loaded := [sample_decision "d1" pending; sample_decision "d2" pending;
                 sample_decision "d3" accepted] in
  let es := [Click "d1" accept; Settle "d1" accept granted_ok; Click "d2" reject] in
  exists c', run (start loaded) es = Some c'
    /\ count_status pending loaded = 2
    /\ count_status pending (decisions c') = 1
    /\ length (offered_controls (decisions c')) = 2.
Proof.
  intros loaded es.
  destruct (run (start loaded) es) as [c'|] eqn:Hrun; [|discriminate Hrun].
  exists c'. split; [reflexivity|]. split; [reflexivity|].
  destruct (pending_never_grows es (start loaded) c' Hrun) as (_ & _ & Hbuttons).
  vm_compute in Hrun. injection Hrun as <-.
  split; [reflexivity | exact Hbuttons].
Defined.

Lemma mark_resolved_twice k a b ds :
  mark_resolved k b (mark_resolved k a ds) = mark_resolved k b ds.
Proof.
  unfold mark_resolved. rewrite map_map. apply map_ext. intros d.
  destruct (String.eqb (id d) k) eqn:Hk; simpl; rewrite Hk; reflexivity.
Qed.

Lemma mark_resolved_swap k k' a b ds :
  k <> k' ->
  mark_resolved k a (mark_resolved k' b ds) = mark_resolved k' b (mark_resolved k a ds).
Proof.
  intros Hne. unfold mark_resolved. rewrite !map_map. apply map_ext. intros d.
  destruct (String.eqb (id d) k) eqn:Hk, (String.eqb (id d) k') eqn:Hk';
    simpl; rewrite ?Hk, ?Hk'; try reflexivity.
  apply String.eqb_eq in Hk, Hk'. congruence.
Qed.

(** X10. How resolutions compose: a second granted resolution of the same
    id replaces the first (the last one wins, whatever the status was), and
    granted resolutions of different ids can be applied in either order. *)
Theorem resolutions_compose :
  (forall k a b ds,
     mark_resolved k b (mark_resolved k a ds) = mark_resolved k b ds)
  /\ (forall k k' a b ds,
        k <> k' ->
        mark_resolved k a (mark_resolved k' b ds)
        = mark_resolved k' b (mark_resolved k a ds))
  /\ (forall k k' a b G ds,
        k <> k' ->
        apply_grants ((k, a) :: (k', b) :: G) ds
        = apply_grants ((k', b) :: (k, a) :: G) ds).
Proof.
  split; [exact mark_resolved_twice|]. split; [exact mark_resolved_swap|].
  intros k k' a b G ds Hne. unfold apply_grants. simpl.
  rewrite (mark_resolved_swap k' k b a ds); [reflexivity | congruence].
Qed.

Lemma resolutions_compose_witness :
  let ds := [sample_decision "d1" pending; sample_decision "d2" pending] in
  "d1" <> "d2"
  /\ mark_resolved "d1" accept (mark_resolved "d2" reject ds)
     = mark_resolved "d2" reject (mark_resolved "d1" accept ds)
  /\ mark_resolved "d1" reject (mark_resolved "d1" accept ds)
     = [sample_decision "d1" rejected; sample_decision "d2" pending].
Proof.
  intros ds.
  assert (Hne : "d1" <> "d2") by discriminate.
  split; [exact Hne|]. split.
  - exact (proj1 (proj2 resolutions_compose) "d1" "d2" accept reject ds Hne).
  - rewrite (proj1 resolutions_compose "d1" accept reject ds). reflexivity.
Defined.

(** X11. With distinct ids, a granted resolution of a pending decision moves
    exactly one decision: the pending counter of the header goes down by one
    and the counter of the new status goes up by one. *)
Theorem resolution_moves_one_counter k a d ds :
  NoDup (map id ds) ->
  d ∈ ds -> id d = k -> status d = pending ->
  S (count_status pending (mark_resolved k a ds)) = count_status pending ds
  /\ count_status (resolved_status a) (mark_resolved k a ds)
     = S (count_status (resolved_status a) ds).
Proof.
  intros Hnd Hd Hid Hst. subst k.
  induction ds as [|x ds IH]; [inversion Hd|].
  simpl in Hnd. apply NoDup_cons in Hnd as [Hx Hnd].
  cbn [mark_resolved map]. fold (mark_resolved (id d) a ds). rewrite !count_cons.
  apply elem_of_cons in Hd as [<- | Hd].
  - rewrite String.eqb_refl, (mark_resolved_absent _ _ _ Hx).
    unfold has_status. simpl status. rewrite Hst.
    rewrite (bool_decide_eq_false_2 (resolved_status a = pending))
      by apply AIDecisionsFacts.resolved_status_not_pending.
    rewrite (bool_decide_eq_false_2 (pending = resolved_status a))
      by (intros E; symmetry in E; revert E; apply AIDecisionsFacts.resolved_status_not_pending).
    rewrite !bool_decide_eq_true_2 by reflexivity. lia.
  - destruct (String.eqb_spec (id x) (id d)) as [Heq | _].
    + exfalso. apply Hx. rewrite Heq.
      apply list_elem_of_In, in_map, list_elem_of_In, Hd.
    + destruct (IH Hnd Hd) as [H1 H2]. lia.
Qed.

Lemma resolution_moves_one_counter_witness :
  let ds := [sample_decision "d1" accepted; sample_decision "d2" pending;
             sample_decision "d3" pending] in
  NoDup (map id ds) /\ sample_decision "d2" pending ∈ ds
  /\ count_status pending ds = 2 /\ count_status accepted ds = 1
  /\ S (count_status pending (mark_resolved "d2" accept ds)) = count_status pending ds
  /\ count_status accepted (mark_resolved "d2" accept ds) = S (count_status accepted ds).
Proof.
  intros ds.
  assert (H1 : NoDup (map id ds)) by (apply (bool_decide_unpack _); vm_compute; exact I).
  assert (H2 : sample_decision "d2" pending ∈ ds) by (right; left).
  split; [exact H1|]. split; [exact H2|]. split; [reflexivity|]. split; [reflexivity|].
  exact (resolution_moves_one_counter "d2" accept (sample_decision "d2" pending) ds
           H1 H2 eq_refl eq_refl).
Defined.

End AIDecisionsViewFacts.

(** ** MLPredictions: the list, the colours and the hour input *)

Module MLPredictionsViewFacts.
Import MLPredictionsView.

(** X12. A new prediction is put first and nothing is removed: after any
    sequence of answers to prediction requests the list is the predictions
    of the answers that were ok, the latest first, followed by the list as
    it was; answers that are not ok and failed requests change nothing. *)
Theorem predictions_newest_first answers : forall prev,
  after_answers answers prev = rev (accepted_answers answers) ++ prev.
Proof.
  unfold after_answers.
  induction answers as [|a answers IH]; intros prev; [reflexivity|].
  cbn [fold_left]. rewrite IH.
  destruct a as [w| |]; cbn [after_answer accepted_answers]; [|reflexivity..].
  cbn [rev]. rewrite <- app_assoc. reflexivity.
Qed.

(** X13. The colour, the icon and the badge of a predicted delay agree: the
    class of the icon is the colour of the text, green with the check icon
    and the default badge below 5 minutes, yellow with the clock from 5 to
    below 15, red with the alert from 15 on; a delay that is not a number is
    shown red with a destructive badge. *)
Theorem delay_colour_icon_badge_agree :
  (forall delay,
     snd (getDelayIcon delay) = "h-4 w-4 " +:+ getDelayColor delay)
  /\ (forall p,
        delay_badge_variant p = "default" <-> getDelayColor (predictedDelay p) = "text-green-500")
  /\ (forall q,
        (getDelayColor (Js.Fin q) = "text-green-500"
         /\ fst (getDelayIcon (Js.Fin q)) = "CheckCircle" <-> (q < 5)%Q)
        /\ (getDelayColor (Js.Fin q) = "text-yellow-500"
            /\ fst (getDelayIcon (Js.Fin q)) = "Clock" <-> (5 <= q)%Q /\ (q < 15)%Q)
        /\ (getDelayColor (Js.Fin q) = "text-red-500"
            /\ fst (getDelayIcon (Js.Fin q)) = "AlertTriangle" <-> (15 <= q)%Q))
  /\ getDelayColor Js.NaN = "text-red-500"
  /\ (forall p, predictedDelay p = Js.NaN -> delay_badge_variant p = "destructive").
Proof.
  split; [|split; [|split; [|split]]].
  - intros delay. unfold getDelayIcon, getDelayColor.
    destruct (Js.ltb delay (Js.Fin 5)); [reflexivity|].
    destruct (Js.ltb delay (Js.Fin 15)); reflexivity.
  - intros p. unfold delay_badge_variant, getDelayColor.
    destruct (Js.ltb (predictedDelay p) (Js.Fin 5)); [split; reflexivity|].
    destruct (Js.ltb (predictedDelay p) (Js.Fin 15)); split; discriminate.
  - intros q. unfold getDelayColor, getDelayIcon. cbn [Js.ltb].
    destruct (Js.Qltb q 5) eqn:H5; destruct (Js.Qltb q 15) eqn:H15;
      try (apply DashboardFacts.Qltb_lt in H5);
      try (apply DashboardFacts.Qltb_lt in H15);
      try (apply not_true_iff_false in H5; rewrite DashboardFacts.Qltb_lt in H5;
           apply Qnot_lt_le in H5);
      try (apply not_true_iff_false in H15; rewrite DashboardFacts.Qltb_lt in H15;
           apply Qnot_lt_le in H15);
      cbn [fst];
      (split; [|split]); split;
      try (intros [? ?]; discriminate);
      try (intros _; split; reflexivity);
      try (intros _; split; assumption);
      try (intros _; assumption);
      try (intros Hq; exfalso; exact (Qlt_not_le _ _ Hq H5));
      try (intros [_ Hq]; exfalso; exact (Qlt_not_le _ _ Hq H15));
      try (intros [Hq _]; exfalso; exact (Qlt_not_le _ _ H5 Hq));
      try (intros Hq; exfalso; exact (Qlt_not_le _ _ H15 Hq)).
    exfalso. apply (Qlt_not_le _ _ H5). apply Qle_trans with 15%Q; [|exact H15].
    apply Qle_bool_imp_le. reflexivity.
  - reflexivity.
  - intros p Hp. unfold delay_badge_variant. rewrite Hp. reflexivity.
Qed.


(** X14. The hour input stores a natural number typed into it as it is
    (for numbers up to 2^53, which binary64 holds exactly) and changes no
    other field: the number is sent as the hour of the next prediction
    request whether or not it lies within the 0-23 the input declares, and an
    emptied input is sent as null. *)
Theorem hour_input_is_not_clamped (n : nat) (prev : MLPredictions.NewPrediction) :
  (Z.of_nat n <= JsMore.exact_integer_bound)%Z ->
  let next := on_hour_input (Js.nat_to_string n) prev in
  MLPredictions.hour next = Js.of_nat n
  /\ (MLPredictions.within (Some 0%Q) (Some 23%Q) (MLPredictions.hour next) = true
      <-> n <= 23)
  /\ Js.member "hour" (Http.body (MLPredictions.prediction_request next))
     = Some (Js.JNum (inject_Z (Z.of_nat n)))
  /\ Js.member "hour" (Http.body (MLPredictions.prediction_request (on_hour_input "" prev)))
     = Some Js.JNull
  /\ (forall f, f <> MLPredictions.HourOfDay ->
        MLPredictions.numeric_feature next f = MLPredictions.numeric_feature prev f)
  /\ MLPredictions.train_id next = MLPredictions.train_id prev
  /\ MLPredictions.train_type next = MLPredictions.train_type prev.
Proof.
  intros _ next. subst next.
  assert (Hh : MLPredictions.hour (on_hour_input (Js.nat_to_string n) prev) = Js.of_nat n).
  { cbn [on_hour_input MLPredictions.hour]. apply JsMoreFacts.parseInt_reads_decimal. }
  split; [exact Hh|]. split; [|split; [|split; [|split; [|split]]]].
  - rewrite Hh. unfold MLPredictions.within, Js.of_nat, Js.of_Z.
    rewrite andb_true_iff, !Qle_bool_iff.
    change 0%Q with (inject_Z 0). change 23%Q with (inject_Z 23).
    rewrite <- !Zle_Qle. lia.
  - cbn [MLPredictions.prediction_request Http.body MLPredictions.to_json Js.member Js.assoc String.eqb Ascii.eqb Bool.eqb].
    rewrite Hh. reflexivity.
  - reflexivity.
  - intros f Hf. destruct f; try reflexivity. contradiction.
  - reflexivity.
  - reflexivity.
Qed.

(** The form with 25 typed into the hour input. *)
Lemma hour_input_is_not_clamped_witness :
  (Z.of_nat 25 <= JsMore.exact_integer_bound)%Z
  /\ MLPredictions.hour (on_hour_input "25" MLPredictions.initial) = Js.of_nat 25
  /\ MLPredictions.within (Some 0%Q) (Some 23%Q)
       (MLPredictions.hour (on_hour_input "25" MLPredictions.initial)) = false
  /\ Js.member "hour"
       (Http.body (MLPredictions.prediction_request
                     (on_hour_input "25" MLPredictions.initial)))
     = Some (Js.JNum (inject_Z (Z.of_nat 25))).
Proof.
  assert (H1 : (Z.of_nat 25 <= JsMore.exact_integer_bound)%Z) by (vm_compute; discriminate).
  destruct (hour_input_is_not_clamped 25 MLPredictions.initial H1)
    as (Hh & _ & Hbody & _).
  split; [exact H1|]. split; [exact Hh|]. split; [reflexivity | exact Hbody].
Defined.

End MLPredictionsViewFacts.

(** ** Percentages within 0 and 100 *)

Module PercentRange.
Import Percent.

Lemma gtb_zero q : Js.gtb (Js.Fin q) (Js.Fin 0) = true <-> (0 < q)%Q.
Proof. unfold Js.gtb. cbn [Js.ltb]. apply DashboardFacts.Qltb_lt. Qed.

Lemma percentage_range (a b : Q) :
  (0 <= a)%Q -> (a <= b)%Q -> (0 < b)%Q ->
  exists r, percentage (Js.Fin a) (Js.Fin b) = (Js.of_Z r, [(Js.Fin a, Js.Fin b)])
            /\ (0 <= r <= 100)%Z.
Proof.
  intros Ha Hab Hb. unfold percentage.
  rewrite (proj2 (gtb_zero b) Hb).
  unfold bind, divide, ret. cbn [Js.div].
  assert (Hz : Js.Qis_zero b = false).
  { unfold Js.Qis_zero. apply not_true_iff_false. rewrite Qeq_bool_iff.
    intros E. rewrite E in Hb. exact (Qlt_irrefl _ Hb). }
  rewrite Hz. cbn [Js.mul Js.round app].
  eexists. split; [reflexivity|].
  assert (H0 : (0 <= a / b)%Q) by (apply Qle_shift_div_l; [exact Hb | lra]).
  assert (H1 : (a / b <= 1)%Q) by (apply Qle_shift_div_r; [exact Hb | lra]).
  split.
  - apply Z.le_trans with (Qfloor 0); [reflexivity|].
    apply Qfloor_resp_le. lra.
  - apply Z.le_trans with (Qfloor (100 + (1 # 2))); [|reflexivity].
    apply Qfloor_resp_le. lra.
Qed.

(** X15. The share of a decision type is a whole number of percent between
    0 and 100 whenever the count of the type is not negative and not above a
    positive total; the one division it performs is by that total. *)
Theorem decision_type_share_range (count total : Q) :
  (0 <= count)%Q -> (count <= total)%Q -> (0 < total)%Q ->
  exists r, decision_type_share (Js.Fin count) (Js.Fin total)
            = (Js.of_Z r, [(Js.Fin count, Js.Fin total)])
            /\ (0 <= r <= 100)%Z.
Proof.
  intros H0 H1 H2. unfold decision_type_share.
  destruct (percentage_range count total H0 H1 H2) as (r & Hr & Hb).
  exists r. split; assumption.
Qed.

Lemma decision_type_share_range_witness :
  (0 <= 1)%Q /\ (1 <= 8)%Q /\ (0 < 8)%Q
  /\ value (decision_type_share (Js.Fin 1) (Js.Fin 8)) = Js.of_Z 13
  /\ exists r, decision_type_share (Js.Fin 1) (Js.Fin 8)
               = (Js.of_Z r, [(Js.Fin 1, Js.Fin 8)])
               /\ (0 <= r <= 100)%Z.
Proof.
  assert (H0 : (0 <= 1)%Q) by (apply Qle_bool_imp_le; reflexivity).
  assert (H1 : (1 <= 8)%Q) by (apply Qle_bool_imp_le; reflexivity).
  assert (H2 : (0 < 8)%Q) by reflexivity.
  split; [exact H0|]. split; [exact H1|]. split; [exact H2|]. split; [reflexivity|].
  exact (decision_type_share_range 1 8 H0 H1 H2).
Defined.

End PercentRange.

(** ** Dashboard: the counters and the rows *)

Module DashboardPageFacts.
Import Dashboard.

Lemma fetched_never_early o ts :
  Forall (fun t => status t <> early) ts ->
  Forall (fun t => status t <> early) (fetchTrainStatuses o ts).
Proof.
  intros Hts. destruct o as [preds| |]; simpl; [|exact Hts..].
  induction preds; simpl; constructor; [apply DashboardFacts.never_early | assumption].
Qed.

Lemma filter_bool {A} (f : A -> bool) (l : list A) :
  filter (fun x => f x) l = List.filter f l.
Proof.
  induction l as [|x l IH]; [reflexivity|].
  rewrite filter_cons. simpl. rewrite IH.
  destruct (decide (f x)) as [H|H].
  - apply Is_true_true in H. rewrite H. reflexivity.
  - apply Is_true_false in H. rewrite H. reflexivity.
Qed.

Lemma on_time_plus_delayed ts :
  Forall (fun t => status t <> early) ts ->
  length (filter (has_status on_time) ts) + length (filter (has_status delayed) ts)
  = length ts.
Proof.
  rewrite !filter_bool.
  induction 1 as [|t ts Ht _ IH]; [reflexivity|].
  cbn [List.filter]. unfold has_status in *.
  destruct (status t); [| |contradiction]; cbn [length]; lia.
Qed.

Lemma effect_consistent p :
  Forall (fun t => status t <> early) (DashboardPage.trainStatuses p) ->
  DashboardPage.counters_consistent (DashboardPage.effect p).
Proof.
  intros Hts. unfold DashboardPage.counters_consistent, DashboardPage.effect. simpl.
  eexists _, _. split; [reflexivity|]. split; [|exact Hts].
  apply on_time_plus_delayed, Hts.
Qed.

Lemma exec_consistent p ev p' :
  DashboardPage.exec p ev = Some p' -> DashboardPage.counters_consistent p -> DashboardPage.counters_consistent p'.
Proof.
  intros Hex (on & late & Hst & Hsum & Hts).
  destruct ev as [o|o]; simpl in Hex.
  - destruct (DashboardPage.train_fetches p) as [|n]; [discriminate|]. injection Hex as <-.
    pose proof (fetched_never_early o _ Hts) as Hts'.
    unfold DashboardPage.rerender. case_bool_decide as Hlen.
    + simpl in Hlen. destruct Hlen as [Hlen _].
      exists on, late. simpl. rewrite Hlen. split; [exact Hst|]. split; assumption.
    + apply effect_consistent. exact Hts'.
  - destruct (DashboardPage.decision_fetches p) as [|n]; [discriminate|]. injection Hex as <-.
    unfold DashboardPage.rerender. case_bool_decide as Hlen.
    + exists on, late. simpl. split; [exact Hst|]. split; assumption.
    + apply effect_consistent. exact Hts.
Qed.

(** X16. On the dashboard the counters of the trains always fit the list
    shown, whatever the responses and their order: the total is the number
    of rows, and the on-time and delayed counters add up to the total (no
    row is ever early). *)
Theorem dashboard_counters_add_up evs : forall p,
  DashboardPage.run DashboardPage.mounted evs = Some p -> DashboardPage.counters_consistent p.
Proof.
  assert (Hgen : forall evs p0 p,
             DashboardPage.run p0 evs = Some p -> DashboardPage.counters_consistent p0 -> DashboardPage.counters_consistent p).
  { clear evs. induction evs as [|ev evs IH]; intros p0 p Hrun Hinv; simpl in Hrun.
    - injection Hrun as <-. exact Hinv.
    - destruct (DashboardPage.exec p0 ev) as [p1|] eqn:Hex; [|discriminate].
      exact (IH p1 p Hrun (exec_consistent p0 ev p1 Hex Hinv)). }
  intros p Hrun. apply (Hgen evs DashboardPage.mounted p Hrun).
  apply effect_consistent. constructor.
Qed.


Lemma dashboard_counters_add_up_witness :
  let evs := [DashboardPage.TrainsSettle
                (FetchedOk [DashboardPage.sample_prediction "EXP-101" 12; DashboardPage.sample_prediction "LOC-78" 3;
                            DashboardPage.sample_prediction "FRT-203" 10]);
              DashboardPage.DecisionsSettle DashboardPage.DecisionsRejected] in
  exists p, DashboardPage.run DashboardPage.mounted evs = Some p
    /\ DashboardPage.train_counters (DashboardPage.stats p)
       = {| totalTrains := Js.of_nat 3; onTimeTrains := Js.of_nat 2;
            delayedTrains := Js.of_nat 1 |}
    /\ DashboardPage.counters_consistent p.
Proof.
  intros evs.
  destruct (DashboardPage.run DashboardPage.mounted evs) as [p|] eqn:Hrun;
    [|discriminate Hrun].
  exists p. split; [reflexivity|].
  pose proof (dashboard_counters_add_up evs p Hrun) as Hc.
  vm_compute in Hrun. injection Hrun as <-.
  split; [reflexivity | exact Hc].
Defined.

(** X17. The on-time rate the dashboard shows is always a whole number of
    percent between 0 and 100, after every sequence of responses. *)
Theorem on_time_rate_within_0_100 evs : forall p,
  DashboardPage.run DashboardPage.mounted evs = Some p ->
  exists r, Percent.value (Percent.on_time_rate
                             (DashboardPage.train_counters (DashboardPage.stats p)))
            = Js.of_Z r
            /\ (0 <= r <= 100)%Z.
Proof.
  intros p Hrun.
  assert (Hgen : forall evs p0 p,
             DashboardPage.run p0 evs = Some p ->
             DashboardPage.counters_consistent p0 -> DashboardPage.counters_consistent p).
  { clear. induction evs as [|ev evs IH]; intros p0 p Hrun Hinv; simpl in Hrun.
    - injection Hrun as <-. exact Hinv.
    - destruct (DashboardPage.exec p0 ev) as [p1|] eqn:Hex; [|discriminate].
      exact (IH p1 p Hrun (exec_consistent p0 ev p1 Hex Hinv)). }
  assert (Hc : DashboardPage.counters_consistent p).
  { apply (Hgen evs DashboardPage.mounted p Hrun), effect_consistent. constructor. }
  destruct Hc as (on & late & Hst & Hsum & _).
  unfold Percent.on_time_rate. rewrite Hst. cbn [onTimeTrains totalTrains].
  rewrite <- Hsum. unfold Js.of_nat, Js.of_Z.
  destruct (Nat.eq_dec (on + late) 0) as [Hz | Hnz].
  - exists 0%Z. split; [|lia].
    rewrite Hz. reflexivity.
  - destruct (PercentRange.percentage_range (inject_Z (Z.of_nat on))
                (inject_Z (Z.of_nat (on + late)))) as (r & Hr & Hb).
    + change 0%Q with (inject_Z 0). rewrite <- Zle_Qle. lia.
    + rewrite <- Zle_Qle. lia.
    + change 0%Q with (inject_Z 0). rewrite <- Zlt_Qlt. lia.
    + exists r. rewrite Hr. split; [reflexivity | exact Hb].
Qed.

Lemma on_time_rate_within_0_100_witness :
  let evs := [DashboardPage.TrainsSettle
                (FetchedOk [DashboardPage.sample_prediction "EXP-101" 12; DashboardPage.sample_prediction "LOC-78" 3;
                            DashboardPage.sample_prediction "FRT-203" 10])] in
  exists p, DashboardPage.run DashboardPage.mounted evs = Some p
    /\ Percent.value (Percent.on_time_rate
                        (DashboardPage.train_counters (DashboardPage.stats p)))
       = Js.of_Z 67
    /\ exists r, Percent.value (Percent.on_time_rate
                                  (DashboardPage.train_counters (DashboardPage.stats p)))
                 = Js.of_Z r
                 /\ (0 <= r <= 100)%Z.
Proof.
  intros evs.
  destruct (DashboardPage.run DashboardPage.mounted evs) as [p|] eqn:Hrun;
    [|discriminate Hrun].
  exists p. split; [reflexivity|].
  pose proof (on_time_rate_within_0_100 evs p Hrun) as Hr.
  vm_compute in Hrun. injection Hrun as <-.
  split; [reflexivity | exact Hr].
Defined.

(** X18. The counters are those of the list at the last change of its
    length: when a second response brings as many predictions as the first,
    the rows are replaced but the on-time and delayed counters stay those of
    the first response. *)
Theorem counters_follow_length_changes (first second : list Prediction) :
  first <> [] ->
  length second = length first ->
  exists p,
    DashboardPage.run DashboardPage.mounted
      [DashboardPage.TrainsSettle (FetchedOk first);
       DashboardPage.TrainsSettle (FetchedOk second)] = Some p
    /\ DashboardPage.trainStatuses p = map to_train_status second
    /\ DashboardPage.train_counters (DashboardPage.stats p)
       = update_stats (map to_train_status first).
Proof.
  intros Hne Hlen.
  set (after1 := {| DashboardPage.trainStatuses := map to_train_status first;
                    DashboardPage.aiDecisions := [];
                    DashboardPage.stats := DashboardPage.stats DashboardPage.mounted;
                    DashboardPage.train_fetches := 0;
                    DashboardPage.decision_fetches := 1 |}).
  assert (H1 : DashboardPage.exec DashboardPage.mounted
                 (DashboardPage.TrainsSettle (FetchedOk first))
               = Some (DashboardPage.effect after1)).
  { change (Some (DashboardPage.rerender DashboardPage.mounted after1)
            = Some (DashboardPage.effect after1)).
    unfold DashboardPage.rerender. rewrite bool_decide_eq_false_2; [reflexivity|].
    intros [Hl _]. simpl in Hl. rewrite length_map in Hl.
    destruct first; [contradiction | discriminate Hl]. }
  set (after2 := {| DashboardPage.trainStatuses := map to_train_status second;
                    DashboardPage.aiDecisions := [];
                    DashboardPage.stats := DashboardPage.stats (DashboardPage.effect after1);
                    DashboardPage.train_fetches := 0;
                    DashboardPage.decision_fetches := 2 |}).
  assert (H2 : DashboardPage.exec (DashboardPage.effect after1)
                 (DashboardPage.TrainsSettle (FetchedOk second))
               = Some after2).
  { change (Some (DashboardPage.rerender (DashboardPage.effect after1) after2)
            = Some after2).
    unfold DashboardPage.rerender. rewrite bool_decide_eq_true_2; [reflexivity|].
    simpl. rewrite !length_map. split; [exact Hlen | reflexivity]. }
  exists after2. cbn [DashboardPage.run]. rewrite H1, H2.
  split; [reflexivity|]. split; reflexivity.
Qed.

Lemma counters_follow_length_changes_witness :
  let first := [DashboardPage.sample_prediction "EXP-101" 3] in
  let second := [DashboardPage.sample_prediction "EXP-101" 30] in
  first <> [] /\ length second = length first
  /\ exists p,
       DashboardPage.run DashboardPage.mounted
         [DashboardPage.TrainsSettle (FetchedOk first);
          DashboardPage.TrainsSettle (FetchedOk second)] = Some p
       /\ DashboardPage.trainStatuses p = map to_train_status second
       /\ DashboardPage.train_counters (DashboardPage.stats p)
          = update_stats (map to_train_status first).
Proof.
  intros first second.
  assert (H1 : first <> []) by discriminate.
  assert (H2 : length second = length first) by reflexivity.
  split; [exact H1|]. split; [exact H2|].
  exact (counters_follow_length_changes first second H1 H2).
Defined.

Lemma gtb_10_gtb_0 x : Js.gtb x (Js.Fin 10) = true -> Js.gtb x (Js.Fin 0) = true.
Proof.
  destruct x as [| |q|]; try (intros H; exact H).
  unfold Js.gtb. cbn [Js.ltb]. rewrite !DashboardFacts.Qltb_lt. intros H.
  apply Qlt_trans with 10%Q; [reflexivity | exact H].
Qed.

(** X19. The badge of a row agrees with its status: a row made from a
    prediction and marked delayed always shows the minutes of delay and the
    destructive variant, and a row that shows On Time is marked on-time; a
    row with a delay above 0 and up to 10 minutes is marked on-time and
    shows its minutes. *)
Theorem row_badge_agrees_with_status :
  (forall pred,
     let row := to_train_status pred in
     (status row = delayed ->
        DashboardPage.delay_label row = DashboardPage.Late (predictedDelay pred))
     /\ (DashboardPage.delay_label row = DashboardPage.OnTimeLabel -> status row = on_time)
     /\ (DashboardPage.row_badge_variant row = "destructive" <-> status row = delayed))
  /\ (forall k q,
        (0 < q)%Q -> (q <= 10)%Q ->
        let row := to_train_status {| trainId := k; predictedDelay := Js.Fin q |} in
        status row = on_time
        /\ DashboardPage.delay_label row = DashboardPage.Late (Js.Fin q)).
Proof.
  split.
  - intros pred row. subst row.
    unfold DashboardPage.delay_label, DashboardPage.row_badge_variant.
    rewrite DashboardFacts.status_of_prediction. cbn [delay to_train_status].
    destruct (Js.gtb (predictedDelay pred) (Js.Fin 10)) eqn:H10.
    + rewrite (gtb_10_gtb_0 _ H10). repeat split; try reflexivity; discriminate.
    + repeat split; try discriminate; try reflexivity.
  - intros k q H0 H10 row. subst row.
    unfold DashboardPage.delay_label.
    rewrite DashboardFacts.status_of_prediction. cbn [delay to_train_status predictedDelay].
    rewrite (proj2 (PercentRange.gtb_zero q) H0).
    assert (Hn : Js.gtb (Js.Fin q) (Js.Fin 10) = false).
    { apply not_true_iff_false. unfold Js.gtb. cbn [Js.ltb].
      rewrite DashboardFacts.Qltb_lt. apply Qle_not_lt, H10. }
    rewrite Hn. split; reflexivity.
Qed.

Lemma row_badge_agrees_with_status_witness :
  (0 < 5)%Q /\ (5 <= 10)%Q
  /\ status (to_train_status (DashboardPage.sample_prediction "LOC-78" 5)) = on_time
  /\ DashboardPage.delay_label (to_train_status (DashboardPage.sample_prediction "LOC-78" 5))
     = DashboardPage.Late (Js.Fin 5).
Proof.
  assert (H0 : (0 < 5)%Q) by reflexivity.
  assert (H1 : (5 <= 10)%Q) by (apply Qle_bool_imp_le; reflexivity).
  split; [exact H0|]. split; [exact H1|].
  exact (proj2 row_badge_agrees_with_status "LOC-78" 5%Q H0 H1).
Defined.

End DashboardPageFacts.

(** ** Analytics: the bars of the activity by hour *)

Module AnalyticsViewFacts.
Import AnalyticsView.

Lemma max2_fin (a b : Q) :
  JsMore.max2 (Js.Fin a) (Js.Fin b) = Js.Fin (if Js.Qltb a b then b else a).
Proof. unfold JsMore.max2. cbn [Js.ltb]. destruct (Js.Qltb a b); reflexivity. Qed.

Lemma Qltb_false_le a b : Js.Qltb a b = false -> (b <= a)%Q.
Proof.
  intros H. apply not_true_iff_false in H. rewrite DashboardFacts.Qltb_lt in H.
  apply Qnot_lt_le, H.
Qed.

(** The greatest of counts: one of them (or the start), above all of them. *)
Lemma fold_max_counts (l : list Js.number) : forall acc,
  Forall is_count l ->
  exists m, fold_left JsMore.max2 l (Js.Fin acc) = Js.Fin m
            /\ (acc <= m)%Q
            /\ Forall (at_most m) l
            /\ (m = acc \/ Js.Fin m ∈ l).
Proof.
  induction l as [|x l IH]; intros acc Hl.
  - exists acc. repeat split; [apply Qle_refl | constructor | left; reflexivity].
  - inversion Hl as [|? ? Hx Hl']; subst.
    destruct x as [| |q|]; try contradiction.
    cbn [fold_left]. rewrite max2_fin.
    destruct (IH (if Js.Qltb acc q then q else acc) Hl') as (m & Hm & Hle & Hall & Hin).
    exists m. split; [exact Hm|].
    destruct (Js.Qltb acc q) eqn:Hlt.
    + apply DashboardFacts.Qltb_lt in Hlt.
      split; [lra|]. split; [constructor; [exact Hle | exact Hall]|].
      right. destruct Hin as [-> | Hin]; [left | right; exact Hin].
    + apply Qltb_false_le in Hlt.
      split; [exact Hle|]. split; [constructor; [simpl; lra | exact Hall]|].
      destruct Hin as [-> | Hin]; [left; reflexivity | right; right; exact Hin].
Qed.

Lemma max_of_counts (l : list Js.number) :
  l <> [] -> Forall is_count l ->
  exists m, JsMore.max_of l = Js.Fin m /\ Forall (at_most m) l /\ Js.Fin m ∈ l.
Proof.
  intros Hne Hl. destruct l as [|x l]; [contradiction|].
  inversion Hl as [|? ? Hx Hl']; subst.
  destruct x as [| |q|]; try contradiction.
  unfold JsMore.max_of. cbn [fold_left].
  change (JsMore.max2 Js.NegInf (Js.Fin q)) with (Js.Fin q).
  destruct (fold_max_counts l q Hl') as (m & Hm & Hle & Hall & Hin).
  exists m. split; [exact Hm|]. split; [constructor; [exact Hle | exact Hall]|].
  destruct Hin as [-> | Hin]; [left | right; exact Hin].
Qed.

(** X20. With counts that are not negative and at least one count above 0,
    the bar of every hour is between 10 and 100 percent wide, and the bar of
    a greatest count is 100 percent wide. *)
Theorem bar_width_between_10_and_100 (hourly_patterns : list (string * Js.number)) :
  Forall is_count (JsMore.values hourly_patterns) ->
  (exists q, Js.Fin q ∈ JsMore.values hourly_patterns /\ (0 < q)%Q) ->
  (forall c, Js.Fin c ∈ JsMore.values hourly_patterns ->
     exists w, bar_width hourly_patterns (Js.Fin c) = Js.Fin w
               /\ (10 <= w)%Q /\ (w <= 100)%Q)
  /\ (exists m, JsMore.max_of (JsMore.values hourly_patterns) = Js.Fin m
                /\ exists w, bar_width hourly_patterns (Js.Fin m) = Js.Fin w
                             /\ (w == 100)%Q).
Proof.
  intros Hcounts (q & Hq & Hpos).
  assert (Hne : JsMore.values hourly_patterns <> []).
  { intros E. rewrite E in Hq. inversion Hq. }
  destruct (max_of_counts _ Hne Hcounts) as (m & Hm & Hall & Hin).
  assert (Hmpos : (0 < m)%Q).
  { pose proof (proj1 (Forall_forall _ _) Hall _ Hq) as Hqm. simpl in Hqm. lra. }
  assert (Hz : Js.Qis_zero m = false).
  { unfold Js.Qis_zero. apply not_true_iff_false. rewrite Qeq_bool_iff.
    intros E. rewrite E in Hmpos. exact (Qlt_irrefl _ Hmpos). }
  assert (Hwidth : forall c,
             bar_width hourly_patterns (Js.Fin c)
             = Js.Fin (if Js.Qltb 10 (c / m * 100) then c / m * 100 else 10)).
  { intros c. unfold bar_width. rewrite Hm. cbn [Js.div]. rewrite Hz.
    cbn [Js.mul]. apply max2_fin. }
  split.
  - intros c Hc. rewrite Hwidth. eexists. split; [reflexivity|].
    pose proof (proj1 (Forall_forall _ _) Hall _ Hc) as Hcm. simpl in Hcm.
    assert (H1 : (c / m <= 1)%Q) by (apply Qle_shift_div_r; [exact Hmpos | lra]).
    destruct (Js.Qltb 10 (c / m * 100)) eqn:Hlt.
    + apply DashboardFacts.Qltb_lt in Hlt. split; lra.
    + split; [apply Qle_refl | apply Qle_bool_imp_le; reflexivity].
  - exists m. split; [exact Hm|]. rewrite Hwidth.
    assert (H1 : (m / m == 1)%Q).
    { unfold Qdiv. apply Qmult_inv_r.
      intros E. rewrite E in Hmpos. exact (Qlt_irrefl _ Hmpos). }
    assert (Hlt : Js.Qltb 10 (m / m * 100) = true).
    { apply DashboardFacts.Qltb_lt. rewrite H1. reflexivity. }
    rewrite Hlt. eexists. split; [reflexivity|]. rewrite H1. reflexivity.
Qed.

Lemma bar_width_between_10_and_100_witness :
  let hourly_patterns := [("8", Js.Fin 4); ("9", Js.Fin 0); ("17", Js.Fin 16)] in
  Forall is_count (JsMore.values hourly_patterns)
  /\ (exists q, Js.Fin q ∈ JsMore.values hourly_patterns /\ (0 < q)%Q)
  /\ map (fun kv => bar_width hourly_patterns kv.2) hourly_patterns
     = [Js.Fin (4 / 16 * 100); Js.Fin 10; Js.Fin (16 / 16 * 100)]
  /\ exists w, bar_width hourly_patterns (Js.Fin 0) = Js.Fin w
               /\ (10 <= w)%Q /\ (w <= 100)%Q.
Proof.
  intros hp.
  assert (H1 : Forall is_count (JsMore.values hp)).
  { repeat (constructor; [apply Qle_bool_imp_le; reflexivity|]). constructor. }
  assert (H2 : exists q, Js.Fin q ∈ JsMore.values hp /\ (0 < q)%Q).
  { exists 4%Q. split; [left | reflexivity]. }
  split; [exact H1|]. split; [exact H2|]. split; [reflexivity|].
  apply (proj1 (bar_width_between_10_and_100 hp H1 H2) 0%Q).
  right. left.
Defined.

(** X21. The division of the bar width has no guard: when every count of
    the activity by hour is zero, the width of every bar is [NaN]. *)
Theorem bar_width_of_all_zero (hourly_patterns : list (string * Js.number)) :
  Forall Percent.is_zero (JsMore.values hourly_patterns) ->
  forall count, count ∈ JsMore.values hourly_patterns ->
    bar_width hourly_patterns count = Js.NaN.
Proof.
  intros Hzero count Hcount.
  assert (Hcounts : Forall is_count (JsMore.values hourly_patterns)).
  { eapply Forall_impl; [exact Hzero|]. intros [| |q|]; simpl; try contradiction.
    intros E. rewrite E. apply Qle_refl. }
  assert (Hne : JsMore.values hourly_patterns <> []).
  { intros E. rewrite E in Hcount. inversion Hcount. }
  destruct (max_of_counts _ Hne Hcounts) as (m & Hm & _ & Hin).
  pose proof (proj1 (Forall_forall _ _) Hzero _ Hin) as Hm0.
  pose proof (proj1 (Forall_forall _ _) Hzero _ Hcount) as Hc0.
  destruct count as [| |c|]; try contradiction. simpl in Hm0, Hc0.
  unfold bar_width. rewrite Hm. cbn [Js.div]. unfold Js.Qis_zero.
  rewrite (proj2 (Qeq_bool_iff m 0) Hm0), (proj2 (Qeq_bool_iff c 0) Hc0).
  reflexivity.
Qed.

Lemma bar_width_of_all_zero_witness :
  let hourly_patterns := [("8", Js.Fin 0); ("9", Js.Fin 0)] in
  Forall Percent.is_zero (JsMore.values hourly_patterns)
  /\ Js.Fin 0 ∈ JsMore.values hourly_patterns
  /\ bar_width hourly_patterns (Js.Fin 0) = Js.NaN.
Proof.
  intros hp.
  assert (H1 : Forall Percent.is_zero (JsMore.values hp)).
  { repeat (constructor; [reflexivity|]). constructor. }
  assert (H2 : Js.Fin 0 ∈ JsMore.values hp) by left.
  split; [exact H1|]. split; [exact H2|].
  exact (bar_width_of_all_zero hp H1 (Js.Fin 0) H2).
Defined.

End AnalyticsViewFacts.
